(** * Near-Earth objects and their close approaches: entity model and loaders

    A shallow embedding of [models.py] (the classes [NearEarthObject] and
    [CloseApproach]) and of the row handling of [extract.py], with the
    properties of construction, display and serialization stated over it. *)

From Stdlib Require Import NArith ZArith List String Ascii Bool Lia.
From Stdlib Require Import SpecFloat.
Import ListNotations.
Local Open Scope string_scope.

(** ** Python exceptions and results *)

(** The exception classes the modelled code can raise. *)
Inductive exn : Type :=
| ValueError
| TypeError
| AttributeError
| IndexError.

(** A call either returns a value or raises. *)
Inductive result (A : Type) : Type :=
| Ok (a : A)
| Raise (e : exn).
Arguments Ok {A} a.
Arguments Raise {A} e.

Definition bind {A B : Type} (r : result A) (k : A -> result B) : result B :=
  match r with
  | Ok a => k a
  | Raise e => Raise e
  end.

Notation "x <- r ;; k" := (bind r (fun x => k))
  (at level 61, r at next level, right associativity).

(** [try: ... except ValueError: ...] around a computation. *)
Definition except_ValueError {A : Type} (r : result A) (handler : result A)
  : result A :=
  match r with
  | Raise ValueError => handler
  | other => other
  end.

(** ** Floats

    A Python [float] is an IEEE 754 binary64 value; [spec_float] is its
    inductive description (signed zeros, infinities, NaN, finite values). *)
Definition float : Type := spec_float.

Definition prec : Z := 53.
Definition emax : Z := 1024.

Definition nan : float := S754_nan.            (* float('nan') *)
Definition zero : float := S754_zero false.    (* 0.0 *)

(** Truth value of a float: false exactly for [0.0] and [-0.0]; NaN and the
    infinities are true. *)
Definition float_truthy (x : float) : bool :=
  match x with
  | S754_zero _ => false
  | _ => true
  end.

(** [x or y] on floats: [x] itself when it is true, else [y]. *)
Definition float_or (x y : float) : float :=
  if float_truthy x then x else y.

(** An argument handed to the builtin [float]: already a float (the default
    values [float('nan')] and [0.0]) or a string (a field of an input file). *)
Inductive float_arg : Type :=
| ArgFloat (x : float)
| ArgStr (s : string).

(** An object handed to the builtin [float] that may also be [None]: the
    [diameter] of a [NearEarthObject]. *)
Inductive float_input : Type :=
| InArg (a : float_arg)
| InNone.

(** A float or a string is such an object. *)
Coercion InArg : float_arg >-> float_input.

(** ** The builtin [float] *)
Section Builtin.
(** The builtin [float] on a string: [None] stands for its
    [ValueError]. *)
Variable float_of_str : string -> option float.

Definition py_float (a : float_arg) : result float :=
  match a with
  | ArgFloat x => Ok x
  | ArgStr s =>
      match float_of_str s with
      | Some x => Ok x
      | None => Raise ValueError
      end
  end.

(** A numeric argument that is a string the builtin does not read as
    a number. *)
Definition malformed (a : option float_arg) : bool :=
  match a with
  | Some (ArgStr s) =>
      match float_of_str s with
      | Some _ => false
      | None => true
      end
  | _ => false
  end.

(** The builtin [float] on an object that may be [None]: [None] is no
    number and no string, and [float] raises [TypeError] on it. *)
Definition builtin_float (a : float_input) : result float :=
  match a with
  | InArg a => py_float a
  | InNone => Raise TypeError
  end.
End Builtin.

(** ** Strings *)

(** Truth value of a string: false exactly for the empty string. *)
Definition str_truthy (s : string) : bool :=
  match s with
  | EmptyString => false
  | String _ _ => true
  end.

(** [o or default] for an optional string. *)
Definition opt_str_or (o : option string) (default : string) : string :=
  match o with
  | Some s => if str_truthy s then s else default
  | None => default
  end.

(** [format(o)] inside an f-string: a string as it is, [None] as its name. *)
Definition format_opt_str (o : option string) : string :=
  match o with
  | Some s => s
  | None => "None"
  end.

(** ** Calendar timestamps *)

(** A [datetime.datetime] value (naive, no tzinfo). *)
Record datetime : Type := mk_datetime {
  year : N;
  month : N;
  day : N;
  hour : N;
  minute : N;
  second : N;
  microsecond : N
}.

Definition is_leap (y : N) : bool :=
  ((y mod 4 =? 0) && (negb (y mod 100 =? 0) || (y mod 400 =? 0)))%N.

Definition days_in_month (y m : N) : N :=
  match m with
  | 2 => if is_leap y then 29 else 28
  | 4 | 6 | 9 | 11 => 30
  | _ => 31
  end%N.

(** The ranges the [datetime] constructor enforces. *)
Definition valid_datetime (d : datetime) : bool :=
  ((1 <=? year d) && (year d <=? 9999) &&
   (1 <=? month d) && (month d <=? 12) &&
   (1 <=? day d) && (day d <=? days_in_month (year d) (month d)) &&
   (hour d <? 24) && (minute d <? 60) && (second d <? 60) &&
   (microsecond d <? 1000000))%N.

(** *** Decimal formatting *)

Definition digit_char (d : N) : ascii := ascii_of_N (48 + d).

Fixpoint dec_digits (fuel : nat) (n : N) (acc : string) : string :=
  match fuel with
  | O => acc
  | S fuel' =>
      let acc' := String (digit_char (n mod 10)) acc in
      if (n / 10 =? 0)%N then acc' else dec_digits fuel' (n / 10) acc'
  end.

(** [str(n)] for a non-negative integer. *)
Definition str_of_N (n : N) : string :=
  dec_digits (S (N.to_nat (N.size n))) n "".

Fixpoint repeat_char (c : ascii) (k : nat) : string :=
  match k with
  | O => ""
  | S k' => String c (repeat_char c k')
  end.

(** Zero padding on the left up to [width] characters, as [%0<width>d]. *)
Definition zfill (width : nat) (s : string) : string :=
  repeat_char "0"%char (width - String.length s) ++ s.

(** [d.strftime("%Y-%m-%d %H:%M")].  The method hands the format to the
    [strftime] of the C library, which writes month, day, hour (24-hour
    clock) and minute on two digits, zero padded, and the year as a plain
    decimal number: a year below 1000 comes out on fewer than four digits
    (['999-01-01 00:11']). *)
Definition strftime_minute (d : datetime) : string :=
  str_of_N (year d) ++ "-" ++
  zfill 2 (str_of_N (month d)) ++ "-" ++
  zfill 2 (str_of_N (day d)) ++ " " ++
  zfill 2 (str_of_N (hour d)) ++ ":" ++
  zfill 2 (str_of_N (minute d)).

(** The same with the year zero padded to four digits: the sixteen
    characters ["YYYY-MM-DD HH:MM"]. *)
Definition padded_minute (d : datetime) : string :=
  zfill 4 (str_of_N (year d)) ++ "-" ++
  zfill 2 (str_of_N (month d)) ++ "-" ++
  zfill 2 (str_of_N (day d)) ++ " " ++
  zfill 2 (str_of_N (hour d)) ++ ":" ++
  zfill 2 (str_of_N (minute d)).

(** *** The pattern ["YYYY-MM-DD HH:MM"] *)

Definition is_digit (c : ascii) : bool :=
  let n := N_of_ascii c in ((48 <=? n) && (n <=? 57))%N.

Definition digit_val (c : ascii) : N := N_of_ascii c - 48.

(** Exactly sixteen characters: four digits, a dash, two digits, a dash, two
    digits, a space, two digits, a colon, two digits, and nothing after. *)
Definition is_minute_stamp (s : string) : bool :=
  match list_ascii_of_string s with
  | [y1; y2; y3; y4; s1; m1; m2; s2; d1; d2; s3; h1; h2; s4; n1; n2] =>
      forallb is_digit [y1; y2; y3; y4; m1; m2; d1; d2; h1; h2; n1; n2] &&
      Ascii.eqb s1 "-" && Ascii.eqb s2 "-" && Ascii.eqb s3 " " &&
      Ascii.eqb s4 ":"
  | _ => false
  end.

(** The numbers a stamp of that pattern spells: year, month, day, hour and
    minute. *)
Definition stamp_fields (s : string) : option (N * N * N * N * N) :=
  if is_minute_stamp s then
    match list_ascii_of_string s with
    | [y1; y2; y3; y4; _; m1; m2; _; d1; d2; _; h1; h2; _; n1; n2] =>
        Some ((1000 * digit_val y1 + 100 * digit_val y2 +
               10 * digit_val y3 + digit_val y4,
               10 * digit_val m1 + digit_val m2,
               10 * digit_val d1 + digit_val d2,
               10 * digit_val h1 + digit_val h2,
               10 * digit_val n1 + digit_val n2)%N)
    | _ => None
    end
  else None.

(** ** Serialized records *)

(** The values a serialized record holds. *)
Inductive pyval : Type :=
| VNone
| VBool (b : bool)
| VStr (s : string)
| VFloat (x : float).

(** A [dict] literal with string keys, in insertion order. *)
Definition record : Type := list (string * pyval).

Fixpoint lookup (k : string) (r : record) : option pyval :=
  match r with
  | [] => None
  | (k', v) :: r' => if String.eqb k k' then Some v else lookup k r'
  end.

Definition keys (r : record) : list string := map fst r.

Definition opt_bool_val (o : option bool) : pyval :=
  match o with
  | Some b => VBool b
  | None => VNone
  end.

(** ** Object references

    A [CloseApproach] refers to its [NearEarthObject] and a
    [NearEarthObject] to its [CloseApproach]es; both are references to
    shared objects, modelled as locations. *)
Definition loc : Type := nat.

(** ** class NearEarthObject *)
Module NearEarthObject.

Record t : Type := mk {
  designation : option string;
  name : option string;
  diameter : float;
  hazardous : option bool;
  approaches : list loc
}.

Section Init.
Variable float_of_str : string -> option float.

(** [x == ''] for an attribute that is [None] or a string. *)
Definition is_empty_str (o : option string) : bool :=
  match o with
  | Some EmptyString => true
  | _ => false
  end.

Definition __init__ (designation name : option string)
    (diameter : float_input) (hazardous : option bool) : result t :=
  let designation :=
    if is_empty_str designation then None else designation in
  let name := if is_empty_str name then None else name in
  diameter <- except_ValueError (builtin_float float_of_str diameter)
                (Ok nan) ;;
  Ok {| designation := designation;
        name := name;
        diameter := diameter;
        hazardous := hazardous;
        approaches := [] |}.
End Init.

Definition fullname (self : t) : string :=
  let name := opt_str_or (name self) "EmptyName" in
  format_opt_str (designation self) ++ " " ++ name.

Definition serialize (self : t) : record :=
  [ ("designation", VStr (opt_str_or (designation self) ""));
    ("name", VStr (opt_str_or (name self) ""));
    ("diameter_km", VFloat (float_or (diameter self) nan));
    ("potentially_hazardous", opt_bool_val (hazardous self)) ].

Section Display.
(** The format specification [:.3f] applied to a float. *)
Variable format_3f : float -> string.
(** [repr] of a string. *)
Variable repr_str : string -> string.

(** Truth value of the flag: [None] and [False] are false. *)
Definition hazardous_truthy (o : option bool) : bool :=
  match o with
  | Some true => true
  | _ => false
  end.

(** [repr] of an attribute that is [None] or a string. *)
Definition repr_opt_str (o : option string) : string :=
  match o with
  | Some s => repr_str s
  | None => "None"
  end.

(** [repr] of an attribute that is [None] or a boolean. *)
Definition repr_opt_bool (o : option bool) : string :=
  match o with
  | Some true => "True"
  | Some false => "False"
  | None => "None"
  end.

Definition __str__ (self : t) : string :=
  let support_string :=
    if negb (hazardous_truthy (hazardous self)) then "not" else "" in
  "A NearEarthObject designated as " ++ format_opt_str (designation self) ++
  ", named " ++ format_opt_str (name self) ++
  ", which has a diameter of " ++ format_3f (diameter self) ++
  " and is " ++ support_string ++ " hazardous.".

Definition __repr__ (self : t) : string :=
  "NearEarthObject(designation=" ++ repr_opt_str (designation self) ++
  ", name=" ++ repr_opt_str (name self) ++ ", " ++
  "diameter=" ++ format_3f (diameter self) ++
  ", hazardous=" ++ repr_opt_bool (hazardous self) ++ ")".
End Display.

End NearEarthObject.

(** The objects the references denote: every reference a [CloseApproach]
    holds is to a live [NearEarthObject]. *)
Definition store : Type := loc -> NearEarthObject.t.

(** ** class CloseApproach *)
Module CloseApproach.

(** What the attribute [time] holds after construction: [None], the empty
    string (a false [time] argument is kept as it was given) or a
    [datetime]. *)
Inductive time_attr : Type :=
| TimeNone
| TimeEmptyStr
| TimeDatetime (d : datetime).

(** Truth value of the attribute: a [datetime] is always true. *)
Definition time_truthy (a : time_attr) : bool :=
  match a with
  | TimeDatetime _ => true
  | _ => false
  end.

Record t : Type := mk {
  _designation : string;
  time : time_attr;
  distance : float;
  velocity : float;
  neo : option loc
}.

(** The keyword arguments [**info]; [None] is a key that was not given
    (for [time], also an explicit [None], which [info.get] cannot tell
    apart). *)
Record info : Type := mk_info {
  info_designation : option string;
  info_time : option string;
  info_distance : option float_arg;
  info_velocity : option float_arg
}.

(** [info.get(key, default)] *)
Definition get {A : Type} (o : option A) (default : A) : A :=
  match o with
  | Some a => a
  | None => default
  end.

Section Methods.
Variable float_of_str : string -> option float.
(** [helpers.cd_to_datetime], which turns the compact timestamp of the
    input file into a [datetime] or raises. *)
Variable cd_to_datetime : string -> result datetime.
(** [helpers.datetime_to_str], the display form of a [datetime]. *)
Variable datetime_to_str : datetime -> string.

(** [self.time = info.get('time', None)], converted when it is true. *)
Definition time_of_arg (a : option string) : result time_attr :=
  match a with
  | None => Ok TimeNone
  | Some s =>
      if str_truthy s
      then d <- cd_to_datetime s ;; Ok (TimeDatetime d)
      else Ok TimeEmptyStr
  end.

Definition __init__ (kw : info) : result t :=
  let _designation := get (info_designation kw) "" in
  time <- time_of_arg (info_time kw) ;;
  distance <- py_float float_of_str
                (get (info_distance kw) (ArgFloat zero)) ;;
  velocity <- py_float float_of_str
                (get (info_velocity kw) (ArgFloat zero)) ;;
  Ok {| _designation := _designation;
        time := time;
        distance := distance;
        velocity := velocity;
        neo := None |}.

(** The guard [if not self.time: return ''] passes exactly when the time is
    a [datetime]. *)
Definition time_str (heap : store) (self : t) : string :=
  match time self with
  | TimeDatetime d =>
      let return_value := "Time " ++ datetime_to_str d in
      match neo self with
      | Some l =>
          return_value ++
          "Name " ++ format_opt_str (NearEarthObject.name (heap l)) ++
          " Designation " ++
          format_opt_str (NearEarthObject.designation (heap l))
      | None => return_value
      end
  | _ => ""
  end.

(** [self.time.strftime(...)]: only a [datetime] has the method. *)
Definition serialize (self : t) : result record :=
  datetime_utc <- match time self with
                  | TimeDatetime d => Ok (strftime_minute d)
                  | _ => Raise AttributeError
                  end ;;
  Ok [ ("datetime_utc", VStr datetime_utc);
       ("distance_au", VFloat (float_or (distance self) nan));
       ("velocity_km_s", VFloat (float_or (velocity self) nan)) ].
End Methods.

(** The assignment [self.neo = neo] of the database, which links an
    approach to the object at [l]. *)
Definition set_neo (self : t) (l : option loc) : t :=
  {| _designation := _designation self;
     time := time self;
     distance := distance self;
     velocity := velocity self;
     neo := l |}.

End CloseApproach.

(** ** extract.load_neos *)

(** [row[i]] *)
Definition index (row : list string) (i : nat) : result string :=
  match nth_error row i with
  | Some s => Ok s
  | None => Raise IndexError
  end.

Section Loaders.
Variable float_of_str : string -> option float.

(** The arguments the loader passes to the constructor for one row of the
    CSV reader. *)
Definition neo_args (row : list string)
  : result (string * string * bool * string) :=
  designation <- index row 3 ;;
  name <- index row 4 ;;
  flag <- index row 7 ;;
  diameter <- index row 15 ;;
  Ok (designation, name, String.eqb flag "Y", diameter).

Definition neo_of_row (row : list string) : result NearEarthObject.t :=
  args <- neo_args row ;;
  let '(designation, name, hazardous, diameter) := args in
  NearEarthObject.__init__ float_of_str (Some designation) (Some name)
    (ArgStr diameter) (Some hazardous).

(** The loop of [load_neos] over the rows the CSV reader yields. *)
Fixpoint load_neos (rows : list (list string))
  : result (list NearEarthObject.t) :=
  match rows with
  | [] => Ok []
  | row :: rows' =>
      n <- neo_of_row row ;;
      result <- load_neos rows' ;;
      Ok (n :: result)
  end.
End Loaders.

(** ** extract.load_approaches *)

Section ApproachLoader.
Variable float_of_str : string -> option float.
Variable cd_to_datetime : string -> result datetime.

(** The keyword arguments the loader passes to the constructor for one item
    of [data['data']], a list of the strings of the JSON file. *)
Definition approach_info (item : list string) : result CloseApproach.info :=
  designation <- index item 0 ;;
  time <- index item 3 ;;
  distance <- index item 4 ;;
  velocity <- index item 7 ;;
  Ok {| CloseApproach.info_designation := Some designation;
        CloseApproach.info_time := Some time;
        CloseApproach.info_distance := Some (ArgStr distance);
        CloseApproach.info_velocity := Some (ArgStr velocity) |}.

Definition approach_of_item (item : list string) : result CloseApproach.t :=
  kw <- approach_info item ;;
  CloseApproach.__init__ float_of_str cd_to_datetime kw.

(** The loop of [load_approaches] over the items of [data['data']]. *)
Fixpoint load_approaches (items : list (list string))
  : result (list CloseApproach.t) :=
  match items with
  | [] => Ok []
  | item :: items' =>
      a <- approach_of_item item ;;
      result <- load_approaches items' ;;
      Ok (a :: result)
  end.
End ApproachLoader.

(** ** The helpers and the builtin the classes are run with *)

(** Modelled from the spec: [helpers.datetime_to_str] is imported by
    [models.py] but is not among the sources.  The spec fixes the display
    form of a timestamp as ["YYYY-MM-DD HH:MM"], 24-hour, zero padded, without
    seconds and without a timezone suffix. *)
Definition datetime_to_str (d : datetime) : string := padded_minute d.

Definition month_of_abbr (s : string) : option N :=
  let table :=
    [ ("Jan", 1); ("Feb", 2); ("Mar", 3); ("Apr", 4); ("May", 5); ("Jun", 6);
      ("Jul", 7); ("Aug", 8); ("Sep", 9); ("Oct", 10); ("Nov", 11);
      ("Dec", 12) ]%N in
  option_map snd (find (fun e => String.eqb s (fst e)) table).

(** Modelled from the spec: [helpers.cd_to_datetime] is imported by
    [models.py] but is not among the sources.  The spec gives the compact
    timestamp as ["YYYY-Mon-DD HH:MM"] (for instance ["1900-Jan-01 12:00"]),
    without seconds; a string that is not of that form, or that names no
    calendar minute, is a parse failure. *)
Definition cd_to_datetime (s : string) : result datetime :=
  match list_ascii_of_string s with
  | [y1; y2; y3; y4; s1; b1; b2; b3; s2; d1; d2; s3; h1; h2; s4; n1; n2] =>
      if forallb is_digit [y1; y2; y3; y4; d1; d2; h1; h2; n1; n2] &&
         Ascii.eqb s1 "-" && Ascii.eqb s2 "-" && Ascii.eqb s3 " " &&
         Ascii.eqb s4 ":"
      then
        match month_of_abbr (string_of_list_ascii [b1; b2; b3]) with
        | Some m =>
            let d :=
              {| year := 1000 * digit_val y1 + 100 * digit_val y2 +
                         10 * digit_val y3 + digit_val y4;
                 month := m;
                 day := 10 * digit_val d1 + digit_val d2;
                 hour := 10 * digit_val h1 + digit_val h2;
                 minute := 10 * digit_val n1 + digit_val n2;
                 second := 0;
                 microsecond := 0 |}%N in
            if valid_datetime d then Ok d else Raise ValueError
        | None => Raise ValueError
        end
      else Raise ValueError
  | _ => Raise ValueError
  end.

(** *** Short decimal literals

    The builtin [float] is a parameter of the model.  To run the classes on
    concrete inputs it is instantiated with a reader of short decimal
    literals, [[-]digits[.digits]], whose digits spell an integer below
    [2^53] with at most 22 digits after the point: there both the integer and
    the power of ten are binary64 values and one correctly rounded division
    gives the value Python computes.  It accepts nothing else (Python accepts
    more), so it is used on such literals and on text that is no number. *)

Fixpoint digits_value (cs : list ascii) (acc : N) : option N :=
  match cs with
  | [] => Some acc
  | c :: cs' =>
      if is_digit c then digits_value cs' (10 * acc + digit_val c) else None
  end.

Fixpoint split_at_point (cs : list ascii) : list ascii * option (list ascii) :=
  match cs with
  | [] => ([], None)
  | c :: cs' =>
      if Ascii.eqb c "." then ([], Some cs')
      else let '(int_part, frac_part) := split_at_point cs' in
           (c :: int_part, frac_part)
  end.

Definition float_of_Z (z : Z) : float := binary_normalize prec emax z 0 false.

Definition float_of_short_decimal (s : string) : option float :=
  let cs := list_ascii_of_string s in
  let '(negative, body) :=
    match cs with
    | c :: cs' => if Ascii.eqb c "-" then (true, cs') else (false, cs)
    | [] => (false, cs)
    end in
  let '(int_part, frac_part) := split_at_point body in
  let frac := match frac_part with Some f => f | None => [] end in
  match (int_part ++ frac)%list with
  | [] => None
  | all_digits =>
      match digits_value all_digits 0 with
      | Some m =>
          if ((m <? 2 ^ 53) && (N.of_nat (List.length frac) <=? 22))%N then
            let q := SFdiv prec emax (float_of_Z (Z.of_N m))
                       (float_of_Z (10 ^ Z.of_nat (List.length frac))) in
            Some (if negative then SFopp q else q)
          else None
      | None => None
      end
  end.

(** ** Sample objects *)

Definition eros : NearEarthObject.t :=
  {| NearEarthObject.designation := Some "433";
     NearEarthObject.name := Some "Eros";
     NearEarthObject.diameter := S754_finite false 4740038607807447 (-48);
     NearEarthObject.hazardous := Some false;
     NearEarthObject.approaches := [0%nat] |}.

(** An object built with the empty string as designation and as name. *)
Definition anonymous_neo : NearEarthObject.t :=
  {| NearEarthObject.designation := None;
     NearEarthObject.name := None;
     NearEarthObject.diameter := S754_finite false 4740038607807447 (-48);
     NearEarthObject.hazardous := Some false;
     NearEarthObject.approaches := [] |}.

(** A heap in which every location holds [eros]. *)
Definition eros_heap : store := fun _ => eros.

Definition new_year_1900 : datetime :=
  {| year := 1900; month := 1; day := 1; hour := 0; minute := 11;
     second := 0; microsecond := 0 |}.

(** The approach of [eros] of 1900-Jan-01 00:11, at 0.0921 au and
    16.75 km/s, linked to location 0. *)
Definition eros_approach : CloseApproach.t :=
  {| CloseApproach._designation := "433";
     CloseApproach.time := CloseApproach.TimeDatetime new_year_1900;
     CloseApproach.distance := S754_finite false 6636504410893163 (-56);
     CloseApproach.velocity := S754_finite false 4714705859903488 (-48);
     CloseApproach.neo := Some 0%nat |}.

(** The keyword arguments the approach loader passes for it. *)
Definition eros_info : CloseApproach.info :=
  {| CloseApproach.info_designation := Some "433";
     CloseApproach.info_time := Some "1900-Jan-01 00:11";
     CloseApproach.info_distance := Some (ArgStr "0.0921");
     CloseApproach.info_velocity := Some (ArgStr "16.75") |}.

(** The same with a distance that is no number. *)
Definition garbled_info : CloseApproach.info :=
  {| CloseApproach.info_designation := Some "433";
     CloseApproach.info_time := Some "1900-Jan-01 00:11";
     CloseApproach.info_distance := Some (ArgStr "0.09x1");
     CloseApproach.info_velocity := Some (ArgStr "16.75") |}.

(** The same with neither distance nor velocity. *)
Definition bare_info : CloseApproach.info :=
  {| CloseApproach.info_designation := Some "433";
     CloseApproach.info_time := Some "1900-Jan-01 00:11";
     CloseApproach.info_distance := None;
     CloseApproach.info_velocity := None |}.

(** An approach without a time, linked to location 0. *)
Definition undated_approach : CloseApproach.t :=
  {| CloseApproach._designation := "433";
     CloseApproach.time := CloseApproach.TimeNone;
     CloseApproach.distance := S754_finite false 6636504410893163 (-56);
     CloseApproach.velocity := S754_finite false 4714705859903488 (-48);
     CloseApproach.neo := Some 0%nat |}.

(** A row of the CSV reader: sixteen columns, of which the loader reads the
    designation (3), the name (4), the flag (7) and the diameter (15). *)
Definition sample_row (designation name flag diameter : string)
  : list string :=
  [ "a0"; "a1"; "a2"; designation; name; "a5"; "a6"; flag; "a8"; "a9";
    "a10"; "a11"; "a12"; "a13"; "a14"; diameter ].

Definition sample_rows : list (list string) :=
  [ sample_row "433" "Eros" "N" "16.84";
    sample_row "2020 AB" "" "Y" "";
    sample_row "2021 CD" "" "" "0.5" ].

(** The items of the JSON file for two approaches: of the eleven fields
    the loader reads the designation (0), the time (3), the distance (4) and
    the velocity (7). *)
Definition sample_item (designation time distance velocity : string)
  : list string :=
  [ designation; "b1"; "b2"; time; distance; "b5"; "b6"; velocity; "b8";
    "b9"; "b10" ].

Definition sample_items : list (list string) :=
  [ sample_item "433" "1900-Jan-01 00:11" "0.0921" "16.75";
    sample_item "2020 AB" "1900-Jan-02 13:05" "0.5" "7.25" ].

(** The same items followed by one whose distance is no number. *)
Definition garbled_items : list (list string) :=
  (sample_items ++ [ sample_item "433" "1900-Jan-03 09:30" "n/a" "1.5" ])%list.

(** The keyword arguments of an approach whose time is not given. *)
Definition timeless_info : CloseApproach.info :=
  {| CloseApproach.info_designation := Some "433";
     CloseApproach.info_time := None;
     CloseApproach.info_distance := Some (ArgStr "0.0921");
     CloseApproach.info_velocity := Some (ArgStr "16.75") |}.

(** The record of [eros_approach]. *)
Definition eros_record : record :=
  [ ("datetime_utc", VStr "1900-01-01 00:11");
    ("distance_au", VFloat (S754_finite false 6636504410893163 (-56)));
    ("velocity_km_s", VFloat (S754_finite false 4714705859903488 (-48))) ].

(** Half a minute after [new_year_1900], and an approach at that time. *)
Definition new_year_1900_late : datetime :=
  {| year := 1900; month := 1; day := 1; hour := 0; minute := 11;
     second := 30; microsecond := 500 |}.

Definition late_approach : CloseApproach.t :=
  {| CloseApproach._designation := "433";
     CloseApproach.time := CloseApproach.TimeDatetime new_year_1900_late;
     CloseApproach.distance := S754_finite false 6636504410893163 (-56);
     CloseApproach.velocity := S754_finite false 4714705859903488 (-48);
     CloseApproach.neo := None |}.

(** A time of the year 999, as [cd_to_datetime] reads it from
    ["0999-Jan-01 00:11"], and an approach at that time. *)
Definition new_year_999 : datetime :=
  {| year := 999; month := 1; day := 1; hour := 0; minute := 11;
     second := 0; microsecond := 0 |}.

Definition early_approach : CloseApproach.t :=
  {| CloseApproach._designation := "433";
     CloseApproach.time := CloseApproach.TimeDatetime new_year_999;
     CloseApproach.distance := S754_finite false 6636504410893163 (-56);
     CloseApproach.velocity := S754_finite false 4714705859903488 (-48);
     CloseApproach.neo := None |}.

(** * Properties *)

(** ** Decimal formatting of the fields of a timestamp *)

Definition two_digits (n : N) : string :=
  String (digit_char (n / 10)) (String (digit_char (n mod 10)) "").

Definition four_digits (n : N) : string :=
  String (digit_char (n / 1000))
    (String (digit_char (n / 100 mod 10)) (two_digits (n mod 100))).

(** The numbers [0 .. k-1]. *)
Definition below (k : N) : list N := map N.of_nat (seq 0 (N.to_nat k)).

Lemma below_spec (n k : N) : (n < k)%N -> In n (below k).
Proof.
  intros Hn. unfold below. apply in_map_iff.
  exists (N.to_nat n). split; [apply N2Nat.id |].
  apply in_seq. lia.
Qed.

Lemma all_below (P : N -> bool) (k : N) :
  forallb P (below k) = true -> forall n, (n < k)%N -> P n = true.
Proof.
  intros Hall n Hn. rewrite forallb_forall in Hall.
  apply Hall, below_spec, Hn.
Qed.

Lemma zfill2_two_digits (n : N) :
  (n < 100)%N -> zfill 2 (str_of_N n) = two_digits n.
Proof.
  intros Hn. apply String.eqb_eq.
  apply (all_below (fun n => String.eqb (zfill 2 (str_of_N n)) (two_digits n))
           100); [vm_compute; reflexivity | exact Hn].
Qed.

Lemma zfill4_four_digits (n : N) :
  (n < 10000)%N -> zfill 4 (str_of_N n) = four_digits n.
Proof.
  intros Hn. apply String.eqb_eq.
  apply (all_below
           (fun n => String.eqb (zfill 4 (str_of_N n)) (four_digits n))
           10000); [vm_compute; reflexivity | exact Hn].
Qed.

Lemma digit_char_is_digit (d : N) :
  (d < 10)%N -> is_digit (digit_char d) = true.
Proof.
  intros Hd.
  apply (all_below (fun d => is_digit (digit_char d)) 10);
    [vm_compute; reflexivity | exact Hd].
Qed.

Lemma digit_val_digit_char (d : N) :
  (d < 10)%N -> digit_val (digit_char d) = d.
Proof.
  intros Hd. apply N.eqb_eq.
  apply (all_below (fun d => (digit_val (digit_char d) =? d)%N) 10);
    [vm_compute; reflexivity | exact Hd].
Qed.

Lemma valid_datetime_ranges (d : datetime) :
  valid_datetime d = true ->
  (year d < 10000 /\ month d < 100 /\ day d < 100 /\
   hour d < 24 /\ minute d < 60)%N.
Proof.
  unfold valid_datetime. intros H.
  repeat (apply andb_prop in H; destruct H as [H ?]).
  assert (days_in_month (year d) (month d) <= 31)%N.
  { unfold days_in_month.
    repeat match goal with
           | |- context [match ?x with _ => _ end] => destruct x
           end; lia. }
  repeat match goal with
         | H : (_ <=? _)%N = true |- _ => apply N.leb_le in H
         | H : (_ <? _)%N = true |- _ => apply N.ltb_lt in H
         end.
  lia.
Qed.

(** The padded timestamp, character by character. *)
Lemma padded_minute_digits (d : datetime) :
  valid_datetime d = true ->
  padded_minute d =
  four_digits (year d) ++ "-" ++ two_digits (month d) ++ "-" ++
  two_digits (day d) ++ " " ++ two_digits (hour d) ++ ":" ++
  two_digits (minute d).
Proof.
  intros Hv. apply valid_datetime_ranges in Hv.
  destruct Hv as (Hy & Hm & Hd & Hh & Hn).
  unfold padded_minute.
  rewrite (zfill4_four_digits _ Hy), (zfill2_two_digits _ Hm),
    (zfill2_two_digits _ Hd).
  rewrite (zfill2_two_digits (hour d)), (zfill2_two_digits (minute d)) by lia.
  reflexivity.
Qed.

Ltac digit_bound :=
  match goal with
  | |- (_ mod 10 < 10)%N => apply N.mod_lt; discriminate
  | |- (_ / _ < 10)%N => apply N.Div0.div_lt_upper_bound; lia
  end.

Lemma padded_minute_is_stamp (d : datetime) :
  valid_datetime d = true ->
  is_minute_stamp (padded_minute d) = true.
Proof.
  intros Hv. rewrite (padded_minute_digits d Hv).
  apply valid_datetime_ranges in Hv.
  destruct Hv as (Hy & Hm & Hd & Hh & Hn).
  assert (year d mod 100 < 100)%N by (apply N.mod_lt; discriminate).
  unfold is_minute_stamp, four_digits, two_digits. cbn.
  rewrite !digit_char_is_digit by digit_bound.
  reflexivity.
Qed.

Lemma padded_minute_fields (d : datetime) :
  valid_datetime d = true ->
  stamp_fields (padded_minute d) =
  Some (year d, month d, day d, hour d, minute d).
Proof.
  intros Hv. unfold stamp_fields.
  rewrite (padded_minute_is_stamp d Hv), (padded_minute_digits d Hv).
  apply valid_datetime_ranges in Hv.
  destruct Hv as (Hy & Hm & Hd & Hh & Hn).
  assert (year d mod 100 < 100)%N by (apply N.mod_lt; discriminate).
  unfold four_digits, two_digits. cbn [append list_ascii_of_string].
  rewrite !digit_val_digit_char by digit_bound.
  f_equal. repeat apply f_equal2;
    (zify; Z.to_euclidean_division_equations; lia).
Qed.

(** *** The year as the C library writes it *)

Lemma append_assoc (a b c : string) : (a ++ b) ++ c = a ++ b ++ c.
Proof.
  induction a as [| x a IH]; cbn; [reflexivity | rewrite IH; reflexivity].
Qed.

Lemma length_append (a b : string) :
  String.length (a ++ b) = (String.length a + String.length b)%nat.
Proof.
  induction a as [| x a IH]; cbn; [reflexivity | rewrite IH; reflexivity].
Qed.

(** From the year 1000 on the year has its four digits without padding. *)
Lemma zfill4_from_1000 (n : N) :
  (1000 <=? n)%N = true -> (n < 10000)%N -> zfill 4 (str_of_N n) = str_of_N n.
Proof.
  intros Hlow Hn.
  assert (H : (negb (1000 <=? n)%N
               || String.eqb (zfill 4 (str_of_N n)) (str_of_N n)) = true).
  { apply (all_below
             (fun n => negb (1000 <=? n)%N
                       || String.eqb (zfill 4 (str_of_N n)) (str_of_N n))
             10000); [vm_compute; reflexivity | exact Hn]. }
  rewrite Hlow in H. apply String.eqb_eq, H.
Qed.

Lemma strftime_minute_is_padded (d : datetime) :
  valid_datetime d = true ->
  (1000 <=? year d)%N = true ->
  strftime_minute d = padded_minute d.
Proof.
  intros Hv Hlow. apply valid_datetime_ranges in Hv.
  unfold strftime_minute, padded_minute.
  rewrite (zfill4_from_1000 (year d) Hlow) by tauto. reflexivity.
Qed.

Lemma strftime_minute_is_stamp (d : datetime) :
  valid_datetime d = true ->
  (1000 <=? year d)%N = true ->
  is_minute_stamp (strftime_minute d) = true.
Proof.
  intros Hv Hlow. rewrite (strftime_minute_is_padded d Hv Hlow).
  apply padded_minute_is_stamp, Hv.
Qed.

Lemma strftime_minute_fields (d : datetime) :
  valid_datetime d = true ->
  (1000 <=? year d)%N = true ->
  stamp_fields (strftime_minute d) =
  Some (year d, month d, day d, hour d, minute d).
Proof.
  intros Hv Hlow. rewrite (strftime_minute_is_padded d Hv Hlow).
  apply padded_minute_fields, Hv.
Qed.

(** Padding the year puts zeros in front of the whole timestamp. *)
Lemma padded_minute_zeros (d : datetime) :
  padded_minute d =
  repeat_char "0" (4 - String.length (str_of_N (year d))) ++ strftime_minute d.
Proof.
  unfold padded_minute, strftime_minute, zfill at 1.
  apply append_assoc.
Qed.

(** After the year come twelve characters. *)
Lemma strftime_minute_length (d : datetime) :
  valid_datetime d = true ->
  String.length (strftime_minute d) =
  (String.length (str_of_N (year d)) + 12)%nat.
Proof.
  intros Hv. apply valid_datetime_ranges in Hv.
  destruct Hv as (Hy & Hm & Hd & Hh & Hn).
  unfold strftime_minute.
  rewrite (zfill2_two_digits _ Hm), (zfill2_two_digits _ Hd).
  rewrite (zfill2_two_digits (hour d)), (zfill2_two_digits (minute d)) by lia.
  rewrite length_append. reflexivity.
Qed.

(** Two valid times written alike are alike once padded. *)
Lemma strftime_minute_padded_eq (d1 d2 : datetime) :
  valid_datetime d1 = true ->
  valid_datetime d2 = true ->
  strftime_minute d1 = strftime_minute d2 ->
  padded_minute d1 = padded_minute d2.
Proof.
  intros Hv1 Hv2 Heq.
  pose proof (strftime_minute_length d1 Hv1) as L1.
  pose proof (strftime_minute_length d2 Hv2) as L2.
  rewrite Heq in L1. rewrite L1 in L2.
  rewrite !padded_minute_zeros, Heq.
  replace (String.length (str_of_N (year d1)))
    with (String.length (str_of_N (year d2))) by lia.
  reflexivity.
Qed.

(** ** Floats under [or] *)

Lemma float_or_truthy (x y : float) :
  float_truthy x = true -> float_or x y = x.
Proof. unfold float_or. intros ->. reflexivity. Qed.

Lemma float_or_zero (sign : bool) (y : float) :
  float_or (S754_zero sign) y = y.
Proof. reflexivity. Qed.

Lemma nan_is_not_zero (sign : bool) : nan <> S754_zero sign.
Proof. discriminate. Qed.

(** ** NearEarthObject *)

Section NearEarthObjectProperties.
Variable float_of_str : string -> option float.


(** The constructor returns whenever the diameter is a float or a string:
    the only exception [float] raises on those is the one it handles. *)
Lemma neo_init_returns designation name (diameter : float_arg) hazardous :
  exists self,
    NearEarthObject.__init__ float_of_str designation name diameter
      hazardous = Ok self.
Proof.
  unfold NearEarthObject.__init__, builtin_float, py_float.
  destruct diameter as [x | s]; [| destruct (float_of_str s)];
    cbn; eexists; reflexivity.
Qed.

(** C5 (as amended): for every designation, name and hazardous argument
    and every diameter that is a float or a string, the constructor returns
    an object (it does not raise) whose designation and name are the
    arguments with the empty string turned into [None], whose diameter is the
    argument coerced by [float], or NaN when the string does not parse, and
    whose hazardous flag is the argument as given, [None] included. *)
Theorem neo_init_normalizes
    (designation name : option string) (diameter : float_arg)
    (hazardous : option bool) :
  exists self,
    NearEarthObject.__init__ float_of_str designation name diameter
      hazardous = Ok self /\
    NearEarthObject.designation self =
      match designation with
      | Some "" => None
      | given => given
      end /\
    NearEarthObject.name self =
      match name with
      | Some "" => None
      | given => given
      end /\
    NearEarthObject.diameter self =
      match diameter with
      | ArgFloat x => x
      | ArgStr s =>
          match float_of_str s with
          | Some x => x
          | None => nan
          end
      end /\
    NearEarthObject.hazardous self = hazardous.
Proof.
  unfold NearEarthObject.__init__, builtin_float, py_float.
  destruct diameter as [x | s]; [| destruct (float_of_str s)]; cbn;
    eexists; (split; [reflexivity |]); cbn;
    (repeat split);
    try (destruct designation as [[|c d]|]; reflexivity);
    try (destruct name as [[|c d]|]; reflexivity).
Qed.

(** A diameter of [None] is not handled: [float] raises [TypeError] and the
    handler is for [ValueError] alone. *)
Lemma neo_init_none_diameter
    (designation name : option string) (hazardous : option bool) :
  NearEarthObject.__init__ float_of_str designation name InNone hazardous
  = Raise TypeError.
Proof. reflexivity. Qed.

(** What [serialize] emits for a diameter that is not zero: the four
    fields, in this order, with the stored values. *)
Lemma neo_serialize_nonzero (self : NearEarthObject.t) :
  float_truthy (NearEarthObject.diameter self) = true ->
  NearEarthObject.serialize self =
  [ ("designation",
     VStr (match NearEarthObject.designation self with
           | Some s => s
           | None => ""
           end));
    ("name",
     VStr (match NearEarthObject.name self with
           | Some s => s
           | None => ""
           end));
    ("diameter_km", VFloat (NearEarthObject.diameter self));
    ("potentially_hazardous",
     opt_bool_val (NearEarthObject.hazardous self)) ].
Proof.
  intros Hd. unfold NearEarthObject.serialize.
  rewrite (float_or_truthy _ _ Hd).
  destruct (NearEarthObject.designation self) as [[|? ?]|],
    (NearEarthObject.name self) as [[|? ?]|]; reflexivity.
Qed.

(** C3: a diameter known to be zero is not emitted as stored.  Constructed
    with the diameter [0.0] (or [-0.0]), an object holds that diameter, and
    its serialization carries NaN under [diameter_km], as it does for an
    unknown diameter. *)
Theorem neo_serialize_zero_diameter
    (designation name : option string) (sign : bool)
    (hazardous : option bool) :
  exists self,
    NearEarthObject.__init__ float_of_str designation name
      (ArgFloat (S754_zero sign)) hazardous = Ok self /\
    NearEarthObject.diameter self = S754_zero sign /\
    lookup "diameter_km" (NearEarthObject.serialize self) =
      Some (VFloat nan) /\
    lookup "diameter_km" (NearEarthObject.serialize self) <>
      Some (VFloat (NearEarthObject.diameter self)).
Proof.
  eexists. split; [reflexivity |]. cbn.
  repeat split. discriminate.
Qed.

(** A new object has no approaches. *)
Lemma neo_init_approaches designation name diameter hazardous self :
  NearEarthObject.__init__ float_of_str designation name diameter hazardous
  = Ok self ->
  NearEarthObject.approaches self = [].
Proof.
  unfold NearEarthObject.__init__, builtin_float, py_float.
  destruct diameter as [[x | s] |]; [| destruct (float_of_str s) |]; cbn;
    try discriminate; intros [= <-]; reflexivity.
Qed.

(** Same for the flag. *)
Lemma neo_init_hazardous designation name diameter hazardous self :
  NearEarthObject.__init__ float_of_str designation name diameter hazardous
  = Ok self ->
  NearEarthObject.hazardous self = hazardous.
Proof.
  unfold NearEarthObject.__init__, builtin_float, py_float.
  destruct diameter as [[x | s] |]; [| destruct (float_of_str s) |]; cbn;
    try discriminate; intros [= <-]; reflexivity.
Qed.
End NearEarthObjectProperties.

(** ** CloseApproach *)

Section CloseApproachProperties.
Variable float_of_str : string -> option float.
Variable to_datetime : string -> result datetime.
Variable to_str : datetime -> string.


(** The constructor, step by step. *)
Lemma ca_init_inv (kw : CloseApproach.info) (self : CloseApproach.t) :
  CloseApproach.__init__ float_of_str to_datetime kw = Ok self ->
  exists time distance velocity,
    CloseApproach.time_of_arg to_datetime (CloseApproach.info_time kw)
      = Ok time /\
    py_float float_of_str
      (CloseApproach.get (CloseApproach.info_distance kw) (ArgFloat zero))
      = Ok distance /\
    py_float float_of_str
      (CloseApproach.get (CloseApproach.info_velocity kw) (ArgFloat zero))
      = Ok velocity /\
    self =
      CloseApproach.mk
        (CloseApproach.get (CloseApproach.info_designation kw) "")
        time distance velocity None.
Proof.
  unfold CloseApproach.__init__. intros H.
  destruct (CloseApproach.time_of_arg to_datetime
              (CloseApproach.info_time kw)) as [t | e];
    [| discriminate].
  destruct (py_float float_of_str
              (CloseApproach.get (CloseApproach.info_distance kw)
                 (ArgFloat zero))) as [x | e]; [| discriminate].
  destruct (py_float float_of_str
              (CloseApproach.get (CloseApproach.info_velocity kw)
                 (ArgFloat zero))) as [v | e]; [| discriminate].
  cbn in H. injection H as <-.
  exists t, x, v. repeat split.
Qed.

Lemma py_float_malformed (a : option float_arg) :
  malformed float_of_str a = true ->
  py_float float_of_str (CloseApproach.get a (ArgFloat zero))
  = Raise ValueError.
Proof.
  destruct a as [[x | s] |]; cbn; try discriminate.
  destruct (float_of_str s); [discriminate | reflexivity].
Qed.

Lemma py_float_well_formed (a : option float_arg) :
  malformed float_of_str a = false ->
  exists x,
    py_float float_of_str (CloseApproach.get a (ArgFloat zero)) = Ok x.
Proof.
  destruct a as [[x | s] |]; cbn; eauto.
  destruct (float_of_str s); [eauto | discriminate].
Qed.

(** C6: for every keyword dictionary, (1) when the distance or the
    velocity is a string that is no number the constructor fails: with
    [ValueError] whenever the time argument was accepted, and otherwise with
    what the conversion of the time raised before the numbers were read;
    (2) when it returns, a distance or velocity that was not given is
    [0.0]; (3) and with an accepted time and neither number given it does
    return, with both at [0.0]. *)
Theorem ca_init_distance_velocity (kw : CloseApproach.info) :
  (malformed float_of_str (CloseApproach.info_distance kw) = true \/
   malformed float_of_str (CloseApproach.info_velocity kw) = true ->
   (forall time,
      CloseApproach.time_of_arg to_datetime (CloseApproach.info_time kw)
      = Ok time ->
      CloseApproach.__init__ float_of_str to_datetime kw
      = Raise ValueError) /\
   (forall e,
      CloseApproach.time_of_arg to_datetime (CloseApproach.info_time kw)
      = Raise e ->
      CloseApproach.__init__ float_of_str to_datetime kw = Raise e)) /\
  (forall self,
     CloseApproach.__init__ float_of_str to_datetime kw = Ok self ->
     (CloseApproach.info_distance kw = None ->
      CloseApproach.distance self = zero) /\
     (CloseApproach.info_velocity kw = None ->
      CloseApproach.velocity self = zero)) /\
  (forall time,
     CloseApproach.time_of_arg to_datetime (CloseApproach.info_time kw)
     = Ok time ->
     CloseApproach.info_distance kw = None ->
     CloseApproach.info_velocity kw = None ->
     CloseApproach.__init__ float_of_str to_datetime kw =
     Ok (CloseApproach.mk
           (CloseApproach.get (CloseApproach.info_designation kw) "")
           time zero zero None)).
Proof.
  split; [| split].
  - intros Hbad. split.
    + intros t Ht. unfold CloseApproach.__init__. rewrite Ht. cbn.
      destruct (malformed float_of_str (CloseApproach.info_distance kw)) eqn:Hd.
      * rewrite (py_float_malformed _ Hd). reflexivity.
      * destruct (py_float_well_formed _ Hd) as [x ->]. cbn.
        destruct Hbad as [Hbad | Hbad]; [discriminate |].
        rewrite (py_float_malformed _ Hbad). reflexivity.
    + intros e He. unfold CloseApproach.__init__. rewrite He. reflexivity.
  - intros self Hself.
    destruct (ca_init_inv kw self Hself) as (t & x & v & _ & Hx & Hv & ->).
    split; intros Hnone; rewrite Hnone in *; cbn in *; congruence.
  - intros t Ht Hd Hv. unfold CloseApproach.__init__.
    rewrite Ht, Hd, Hv. reflexivity.
Qed.

(** A new approach is not linked. *)
Lemma ca_init_neo (kw : CloseApproach.info) (self : CloseApproach.t) :
  CloseApproach.__init__ float_of_str to_datetime kw = Ok self ->
  CloseApproach.neo self = None.
Proof.
  intros Hself.
  destruct (ca_init_inv kw self Hself) as (t & x & v & _ & _ & _ & ->).
  reflexivity.
Qed.

(** C8: a new [NearEarthObject] has an empty collection of approaches and
    a new [CloseApproach] has no [neo]: whatever the arguments, the
    object a constructor returns is not linked. *)
Theorem fresh_objects_unlinked
    (designation name : option string) (diameter : float_arg)
    (hazardous : option bool) (kw : CloseApproach.info) :
  (exists n,
     NearEarthObject.__init__ float_of_str designation name diameter
       hazardous = Ok n /\
     NearEarthObject.approaches n = []) /\
  (forall self,
     CloseApproach.__init__ float_of_str to_datetime kw = Ok self ->
     CloseApproach.neo self = None).
Proof.
  split.
  - destruct (neo_init_returns float_of_str designation name diameter
                hazardous) as [n Hn].
    exists n. split; [exact Hn |].
    exact (neo_init_approaches float_of_str _ _ _ _ n Hn).
  - intros self. apply ca_init_neo.
Qed.
(** *** Serialization *)

(** What [serialize] returns when the time is a [datetime]. *)
Lemma ca_serialize_datetime (self : CloseApproach.t) (d : datetime) :
  CloseApproach.time self = CloseApproach.TimeDatetime d ->
  CloseApproach.serialize self =
  Ok [ ("datetime_utc", VStr (strftime_minute d));
       ("distance_au", VFloat (float_or (CloseApproach.distance self) nan));
       ("velocity_km_s",
        VFloat (float_or (CloseApproach.velocity self) nan)) ].
Proof. unfold CloseApproach.serialize. intros ->. reflexivity. Qed.

(** Away from zero the two numbers are read back as they are stored. *)
Lemma ca_serialize_nonzero_roundtrip (self : CloseApproach.t) (d : datetime) :
  CloseApproach.time self = CloseApproach.TimeDatetime d ->
  float_truthy (CloseApproach.distance self) = true ->
  float_truthy (CloseApproach.velocity self) = true ->
  exists r,
    CloseApproach.serialize self = Ok r /\
    lookup "distance_au" r = Some (VFloat (CloseApproach.distance self)) /\
    lookup "velocity_km_s" r = Some (VFloat (CloseApproach.velocity self)).
Proof.
  intros Ht Hx Hv. rewrite (ca_serialize_datetime self d Ht).
  eexists. split; [reflexivity |]. cbn.
  rewrite (float_or_truthy _ _ Hx), (float_or_truthy _ _ Hv).
  split; reflexivity.
Qed.

(** C1: the round trip of the two numbers breaks at zero.  An approach with a
    time, a distance of [0.0] (or [-0.0]) and a velocity of [0.0] (or [-0.0])
    serializes to a record whose [distance_au] and [velocity_km_s] are NaN,
    which are not the values the approach holds. *)
Theorem ca_serialize_zero_becomes_nan
    (designation : string) (d : datetime) (sd sv : bool) (l : option loc) :
  let self :=
    CloseApproach.mk designation (CloseApproach.TimeDatetime d)
      (S754_zero sd) (S754_zero sv) l in
  exists r,
    CloseApproach.serialize self = Ok r /\
    lookup "distance_au" r = Some (VFloat nan) /\
    lookup "velocity_km_s" r = Some (VFloat nan) /\
    lookup "distance_au" r <> Some (VFloat (CloseApproach.distance self)) /\
    lookup "velocity_km_s" r <> Some (VFloat (CloseApproach.velocity self)).
Proof.
  intros self. eexists. split; [reflexivity |]. cbn.
  repeat split; discriminate.
Qed.

(** C2 (as amended): for every approach with a time, linked or not, the
    serialization is a record of exactly three fields, [datetime_utc],
    [distance_au] and [velocity_km_s] in this order: the time formatted to
    the minute, and the distance and the velocity, emitted as stored when
    they are not zero.  It holds no further field, and it is the same record
    whatever [neo] refers to. *)
Theorem ca_serialize_three_fields (self : CloseApproach.t) (d : datetime) :
  CloseApproach.time self = CloseApproach.TimeDatetime d ->
  exists datetime_utc distance_au velocity_km_s,
    CloseApproach.serialize self =
      Ok [ ("datetime_utc", VStr datetime_utc);
           ("distance_au", VFloat distance_au);
           ("velocity_km_s", VFloat velocity_km_s) ] /\
    datetime_utc = strftime_minute d /\
    (float_truthy (CloseApproach.distance self) = true ->
     distance_au = CloseApproach.distance self) /\
    (float_truthy (CloseApproach.velocity self) = true ->
     velocity_km_s = CloseApproach.velocity self) /\
    (forall l,
       CloseApproach.serialize (CloseApproach.set_neo self l) =
       CloseApproach.serialize self).
Proof.
  intros Ht. rewrite (ca_serialize_datetime self d Ht).
  do 3 eexists. split; [reflexivity |]. split; [reflexivity |].
  split; [apply float_or_truthy |]. split; [apply float_or_truthy |].
  intros l. apply (ca_serialize_datetime (CloseApproach.set_neo self l) d).
  exact Ht.
Qed.

(** The display string never has the pattern of a bare timestamp: it opens
    with a letter. *)
Lemma time_prefix_is_no_stamp (s : string) :
  is_minute_stamp ("Time " ++ s) = false.
Proof.
  unfold is_minute_stamp. cbn.
  repeat (destruct s as [| ? s]; cbn; try reflexivity).
Qed.

(** C4 (as amended): for every approach whose time is a valid [datetime]
    of the year 1000 or later, the [datetime_utc] field of the serialized
    record is exactly of the form ["YYYY-MM-DD HH:MM"] and spells the year,
    month, day, hour and minute of the time (before the year 1000 the year is
    written on fewer than four digits); the display property [time_str] is
    not that string: it is ["Time "] followed by the helper's rendering of
    the time, followed, when the approach is linked, by the name and the
    designation of its object, and so never has that form. *)
Theorem ca_timestamp_strings
    (heap : store) (self : CloseApproach.t) (d : datetime) :
  CloseApproach.time self = CloseApproach.TimeDatetime d ->
  valid_datetime d = true ->
  (1000 <=? year d)%N = true ->
  (exists r s,
     CloseApproach.serialize self = Ok r /\
     lookup "datetime_utc" r = Some (VStr s) /\
     is_minute_stamp s = true /\
     stamp_fields s = Some (year d, month d, day d, hour d, minute d)) /\
  CloseApproach.time_str to_str heap self =
    match CloseApproach.neo self with
    | Some l =>
        "Time " ++ to_str d ++
        "Name " ++ format_opt_str (NearEarthObject.name (heap l)) ++
        " Designation " ++
        format_opt_str (NearEarthObject.designation (heap l))
    | None => "Time " ++ to_str d
    end /\
  is_minute_stamp (CloseApproach.time_str to_str heap self) = false.
Proof.
  intros Ht Hv Hyear. split; [| split].
  - exists [ ("datetime_utc", VStr (strftime_minute d));
             ("distance_au",
              VFloat (float_or (CloseApproach.distance self) nan));
             ("velocity_km_s",
              VFloat (float_or (CloseApproach.velocity self) nan)) ],
      (strftime_minute d).
    split; [apply ca_serialize_datetime, Ht |].
    split; [reflexivity |].
    split; [apply strftime_minute_is_stamp; assumption
           | apply strftime_minute_fields; assumption].
  - unfold CloseApproach.time_str. rewrite Ht.
    destruct (CloseApproach.neo self) as [l |]; reflexivity.
  - unfold CloseApproach.time_str. rewrite Ht.
    destruct (CloseApproach.neo self) as [l |].
    + exact (time_prefix_is_no_stamp
               (to_str d ++
                "Name " ++ format_opt_str (NearEarthObject.name (heap l)) ++
                " Designation " ++
                format_opt_str (NearEarthObject.designation (heap l)))).
    + apply time_prefix_is_no_stamp.
Qed.

(** C9: [serialize] returns a record exactly when the time is a [datetime].
    For an approach whose time is absent ([None], or the empty string the
    constructor leaves in place) it raises [AttributeError] and returns no
    record; for an approach whose time is a [datetime] it returns one. *)
Theorem ca_serialize_requires_time (self : CloseApproach.t) :
  (CloseApproach.time_truthy (CloseApproach.time self) = false ->
   CloseApproach.serialize self = Raise AttributeError) /\
  (CloseApproach.time_truthy (CloseApproach.time self) = true ->
   exists r, CloseApproach.serialize self = Ok r).
Proof.
  unfold CloseApproach.serialize.
  destruct (CloseApproach.time self) as [| | d]; cbn; split;
    try discriminate; try reflexivity.
  intros _. eexists. reflexivity.
Qed.

(** C10: for every approach whose time is absent ([None] or the empty
    string), [time_str] is the empty string, on every heap and whether or not
    the approach has a [neo]. *)
Theorem ca_time_str_absent (heap : store) (self : CloseApproach.t) :
  CloseApproach.time_truthy (CloseApproach.time self) = false ->
  CloseApproach.time_str to_str heap self = "".
Proof.
  unfold CloseApproach.time_str.
  destruct (CloseApproach.time self); cbn; [reflexivity .. | discriminate].
Qed.
End CloseApproachProperties.

(** ** The loader of near-Earth objects *)

Section LoaderProperties.
Variable float_of_str : string -> option float.

Lemma index_in_range (row : list string) (i : nat) :
  (i < List.length row)%nat -> exists s, index row i = Ok s.
Proof.
  intros Hi. unfold index.
  destruct (nth_error row i) as [s |] eqn:Hs; [eauto |].
  apply nth_error_None in Hs. lia.
Qed.

(** A row with its sixteen columns gives the constructor its arguments, the
    flag compared with ["Y"]. *)
Lemma neo_args_of_full_row (row : list string) :
  (16 <= List.length row)%nat ->
  exists designation name flag diameter,
    nth_error row 7 = Some flag /\
    neo_args row = Ok (designation, name, String.eqb flag "Y", diameter).
Proof.
  intros Hlen. unfold neo_args.
  destruct (index_in_range row 3) as [d Hd]; [lia |].
  destruct (index_in_range row 4) as [n Hn]; [lia |].
  destruct (index_in_range row 7) as [f Hf]; [lia |].
  destruct (index_in_range row 15) as [x Hx]; [lia |].
  assert (Hflag : nth_error row 7 = Some f).
  { revert Hf. unfold index.
    destruct (nth_error row 7); intros [= ->]; reflexivity. }
  exists d, n, f, x. split; [exact Hflag |].
  rewrite Hd, Hn, Hf, Hx. reflexivity.
Qed.

(** C7: for every list of rows with their sixteen columns the loader
    returns one object per row, in order, and for each row the hazardous
    value handed to the constructor, which the object keeps, is the
    comparison of the flag in column 7 with ["Y"]: true if and only if the
    flag is ["Y"], false for any other flag, the empty one included. *)
Theorem load_neos_hazardous (rows : list (list string)) :
  Forall (fun row => (16 <= List.length row)%nat) rows ->
  exists neos,
    load_neos float_of_str rows = Ok neos /\
    Forall2
      (fun row n =>
         exists designation name flag diameter,
           nth_error row 7 = Some flag /\
           neo_args row =
             Ok (designation, name, String.eqb flag "Y", diameter) /\
           NearEarthObject.hazardous n = Some (String.eqb flag "Y") /\
           (NearEarthObject.hazardous n = Some true <-> flag = "Y"))
      rows neos.
Proof.
  induction 1 as [| row rows Hrow _ IH].
  - exists []. split; [reflexivity | constructor].
  - destruct IH as (neos & Hneos & Hall).
    destruct (neo_args_of_full_row row Hrow) as (d & nm & f & x & Hf & Hargs).
    destruct (neo_init_returns float_of_str (Some d) (Some nm) (ArgStr x)
                (Some (String.eqb f "Y"))) as [n Hn].
    exists (n :: neos). split.
    + cbn. unfold neo_of_row. rewrite Hargs. cbn. rewrite Hn. cbn.
      rewrite Hneos. reflexivity.
    + constructor; [| exact Hall].
      exists d, nm, f, x. split; [exact Hf |]. split; [exact Hargs |].
      pose proof (neo_init_hazardous float_of_str _ _ _ _ n Hn) as Hh.
      split; [exact Hh |]. rewrite Hh. split.
      * intros [= Heq]. apply String.eqb_eq, Heq.
      * intros ->. reflexivity.
Qed.
End LoaderProperties.

(** * The properties on concrete inputs

    The classes run with [float_of_short_decimal], [cd_to_datetime] and
    [datetime_to_str]. *)

(** Eros as the loader and the example of the spec give it. *)
Example eros_constructed :
  NearEarthObject.__init__ float_of_short_decimal (Some "433") (Some "Eros")
    (ArgStr "16.84") (Some false)
  = Ok {| NearEarthObject.designation := Some "433";
          NearEarthObject.name := Some "Eros";
          NearEarthObject.diameter := NearEarthObject.diameter eros;
          NearEarthObject.hazardous := Some false;
          NearEarthObject.approaches := [] |}.
Proof. vm_compute. reflexivity. Qed.

(** Its approach of 1900, before it is linked. *)
Example eros_approach_constructed :
  CloseApproach.__init__ float_of_short_decimal cd_to_datetime eros_info
  = Ok (CloseApproach.set_neo eros_approach None).
Proof. vm_compute. reflexivity. Qed.

(** Once linked, its display string contains the time to the minute. *)
Example eros_approach_time_str :
  CloseApproach.time_str datetime_to_str eros_heap eros_approach
  = "Time 1900-01-01 00:11Name Eros Designation 433".
Proof. vm_compute. reflexivity. Qed.

(** An approach built without a distance holds [0.0] and serializes it as
    NaN. *)
Example default_distance_serialized :
  exists self,
    CloseApproach.__init__ float_of_short_decimal cd_to_datetime bare_info
    = Ok self /\
    CloseApproach.distance self = zero /\
    option_map (lookup "distance_au")
      (match CloseApproach.serialize self with
       | Ok r => Some r
       | Raise _ => None
       end) = Some (Some (VFloat nan)).
Proof. eexists. split; [vm_compute; reflexivity |]. split; reflexivity. Qed.

(** A diameter of ["0.0"] in the input file is read as zero and serialized
    as NaN. *)
Example zero_diameter_serialized :
  exists self,
    NearEarthObject.__init__ float_of_short_decimal (Some "433")
      (Some "Eros") (ArgStr "0.0") (Some false) = Ok self /\
    NearEarthObject.diameter self = zero /\
    lookup "diameter_km" (NearEarthObject.serialize self) = Some (VFloat nan).
Proof. eexists. split; [vm_compute; reflexivity |]. split; reflexivity. Qed.

(** C5, counterexample: built with the diameter [None], Eros is not
    constructed: the call raises [TypeError]. *)
Lemma neo_init_none_diameter_raises :
  NearEarthObject.__init__ float_of_short_decimal (Some "433") (Some "Eros")
    InNone (Some false)
  = Raise TypeError.
Proof. reflexivity. Qed.

(** C2, counterexample: the linked approach of Eros serializes to the three
    fields of the approach alone; none of the fields of the serialization of
    its object is in the record. *)
Lemma ca_serialize_omits_neo_fields :
  CloseApproach.neo eros_approach = Some 0%nat /\
  NearEarthObject.serialize (eros_heap 0%nat) =
    [ ("designation", VStr "433"); ("name", VStr "Eros");
      ("diameter_km", VFloat (NearEarthObject.diameter eros));
      ("potentially_hazardous", VBool false) ] /\
  exists r,
    CloseApproach.serialize eros_approach = Ok r /\
    keys r = ["datetime_utc"; "distance_au"; "velocity_km_s"] /\
    lookup "designation" r = None /\
    lookup "name" r = None /\
    lookup "diameter_km" r = None /\
    lookup "potentially_hazardous" r = None.
Proof.
  split; [reflexivity |]. split; [reflexivity |].
  eexists. split; [reflexivity |]. repeat split.
Qed.

(** The three fields of the linked approach of Eros. *)
Lemma ca_serialize_three_fields_witness :
  exists datetime_utc distance_au velocity_km_s,
    CloseApproach.serialize eros_approach =
      Ok [ ("datetime_utc", VStr datetime_utc);
           ("distance_au", VFloat distance_au);
           ("velocity_km_s", VFloat velocity_km_s) ] /\
    datetime_utc = strftime_minute new_year_1900 /\
    (float_truthy (CloseApproach.distance eros_approach) = true ->
     distance_au = CloseApproach.distance eros_approach) /\
    (float_truthy (CloseApproach.velocity eros_approach) = true ->
     velocity_km_s = CloseApproach.velocity eros_approach) /\
    (forall l,
       CloseApproach.serialize (CloseApproach.set_neo eros_approach l) =
       CloseApproach.serialize eros_approach).
Proof.
  exact (ca_serialize_three_fields eros_approach new_year_1900 eq_refl).
Defined.

(** C4, counterexample: the display string of the approach of Eros, linked
    or not, is not of the form ["YYYY-MM-DD HH:MM"]; nor is the serialized
    time of an approach of the year 999, whose year has three digits. *)
Lemma time_str_is_no_stamp :
  valid_datetime new_year_999 = true /\
  cd_to_datetime "0999-Jan-01 00:11" = Ok new_year_999 /\
  CloseApproach.serialize early_approach =
    Ok [ ("datetime_utc", VStr "999-01-01 00:11");
         ("distance_au", VFloat (CloseApproach.distance early_approach));
         ("velocity_km_s", VFloat (CloseApproach.velocity early_approach)) ] /\
  is_minute_stamp "999-01-01 00:11" = false /\
  valid_datetime new_year_1900 = true /\
  CloseApproach.time_str datetime_to_str eros_heap
    (CloseApproach.set_neo eros_approach None) = "Time 1900-01-01 00:11" /\
  is_minute_stamp
    (CloseApproach.time_str datetime_to_str eros_heap
       (CloseApproach.set_neo eros_approach None)) = false /\
  is_minute_stamp
    (CloseApproach.time_str datetime_to_str eros_heap eros_approach) = false.
Proof. repeat split. Qed.

(** The two strings of the linked approach of Eros. *)
Lemma ca_timestamp_strings_witness :
  (exists r s,
     CloseApproach.serialize eros_approach = Ok r /\
     lookup "datetime_utc" r = Some (VStr s) /\
     is_minute_stamp s = true /\
     stamp_fields s = Some (1900, 1, 1, 0, 11)%N) /\
  CloseApproach.time_str datetime_to_str eros_heap eros_approach =
    "Time " ++ datetime_to_str new_year_1900 ++ "Name Eros Designation 433" /\
  is_minute_stamp
    (CloseApproach.time_str datetime_to_str eros_heap eros_approach) = false.
Proof.
  exact (ca_timestamp_strings datetime_to_str eros_heap eros_approach
           new_year_1900 eq_refl eq_refl eq_refl).
Defined.

(** A distance that is no number, and no numbers at all. *)
Lemma ca_init_distance_velocity_witness :
  CloseApproach.__init__ float_of_short_decimal cd_to_datetime garbled_info
  = Raise ValueError /\
  CloseApproach.__init__ float_of_short_decimal cd_to_datetime bare_info
  = Ok (CloseApproach.mk "433" (CloseApproach.TimeDatetime new_year_1900)
          zero zero None).
Proof.
  split.
  - exact (proj1
             (proj1 (ca_init_distance_velocity float_of_short_decimal
                       cd_to_datetime garbled_info)
                (or_introl eq_refl))
             (CloseApproach.TimeDatetime new_year_1900) eq_refl).
  - exact (proj2
             (proj2 (ca_init_distance_velocity float_of_short_decimal
                       cd_to_datetime bare_info))
             (CloseApproach.TimeDatetime new_year_1900)
             eq_refl eq_refl eq_refl).
Defined.

(** With the timestamp helper as the spec describes it, whose only failure
    is [ValueError], a distance or velocity that is no number makes the
    constructor raise [ValueError] on every input. *)
Lemma cd_to_datetime_raises_ValueError (s : string) (e : exn) :
  cd_to_datetime s = Raise e -> e = ValueError.
Proof.
  unfold cd_to_datetime.
  repeat match goal with
         | |- context [match ?x with _ => _ end] => destruct x
         end; congruence.
Qed.

Lemma ca_init_malformed_ValueError
    (float_of_str : string -> option float) (kw : CloseApproach.info) :
  malformed float_of_str (CloseApproach.info_distance kw) = true \/
  malformed float_of_str (CloseApproach.info_velocity kw) = true ->
  CloseApproach.__init__ float_of_str cd_to_datetime kw = Raise ValueError.
Proof.
  intros Hbad.
  destruct (CloseApproach.__init__ float_of_str cd_to_datetime kw)
    as [self | e] eqn:Hinit.
  - destruct (ca_init_inv _ _ _ _ Hinit) as (t & x & v & _ & Hx & Hv & _).
    destruct Hbad as [Hbad | Hbad];
      rewrite (py_float_malformed _ _ Hbad) in *; discriminate.
  - f_equal. revert Hinit. unfold CloseApproach.__init__.
    destruct (CloseApproach.time_of_arg cd_to_datetime
                (CloseApproach.info_time kw)) as [t | e'] eqn:Ht.
    + cbn.
      destruct (py_float float_of_str
                  (CloseApproach.get (CloseApproach.info_distance kw)
                     (ArgFloat zero))) as [x | e1] eqn:Hx; cbn.
      * destruct (py_float float_of_str
                    (CloseApproach.get (CloseApproach.info_velocity kw)
                       (ArgFloat zero))) as [v | e2] eqn:Hv; cbn;
          [discriminate |].
        intros [= <-]. revert Hv. unfold py_float.
        repeat match goal with
               | |- context [match ?x with _ => _ end] => destruct x
               end; congruence.
      * intros [= <-]. revert Hx. unfold py_float.
        repeat match goal with
               | |- context [match ?x with _ => _ end] => destruct x
               end; congruence.
    + cbn. intros [= <-]. revert Ht. unfold CloseApproach.time_of_arg.
      destruct (CloseApproach.info_time kw) as [s |]; [| discriminate].
      destruct (str_truthy s); [| discriminate].
      destruct (cd_to_datetime s) as [d | e''] eqn:Hd; cbn; [discriminate |].
      intros [= <-]. exact (cd_to_datetime_raises_ValueError s e'' Hd).
Qed.

(** Eros and its approach, as the constructors return them. *)
Lemma fresh_objects_unlinked_witness :
  (exists n,
     NearEarthObject.__init__ float_of_short_decimal (Some "433")
       (Some "Eros") (ArgStr "16.84") (Some false) = Ok n /\
     NearEarthObject.approaches n = []) /\
  CloseApproach.neo (CloseApproach.set_neo eros_approach None) = None.
Proof.
  destruct (fresh_objects_unlinked float_of_short_decimal cd_to_datetime
              (Some "433") (Some "Eros") (ArgStr "16.84") (Some false)
              eros_info) as [Hneo Hca].
  split; [exact Hneo |].
  apply Hca. vm_compute. reflexivity.
Defined.

(** The loader on three full rows. *)
Lemma load_neos_hazardous_witness :
  exists neos,
    load_neos float_of_short_decimal sample_rows = Ok neos /\
    Forall2
      (fun row n =>
         exists designation name flag diameter,
           nth_error row 7 = Some flag /\
           neo_args row =
             Ok (designation, name, String.eqb flag "Y", diameter) /\
           NearEarthObject.hazardous n = Some (String.eqb flag "Y") /\
           (NearEarthObject.hazardous n = Some true <-> flag = "Y"))
      sample_rows neos.
Proof.
  apply load_neos_hazardous.
  repeat constructor.
Defined.

(** The flags of the sample rows, ["N"], ["Y"] and the empty one, as the
    loaded objects hold them. *)
Example sample_rows_hazardous :
  option_map (map NearEarthObject.hazardous)
    (match load_neos float_of_short_decimal sample_rows with
     | Ok neos => Some neos
     | Raise _ => None
     end)
  = Some [Some false; Some true; Some false].
Proof. vm_compute. reflexivity. Qed.

(** A row without its sixteen columns stops the loader. *)
Example short_row_raises :
  load_neos float_of_short_decimal [["433"; "Eros"]] = Raise IndexError.
Proof. reflexivity. Qed.

(** Serializing an approach without a time, and one with a time. *)
Lemma ca_serialize_requires_time_witness :
  CloseApproach.serialize undated_approach = Raise AttributeError /\
  exists r, CloseApproach.serialize eros_approach = Ok r.
Proof.
  split.
  - exact (proj1 (ca_serialize_requires_time undated_approach) eq_refl).
  - exact (proj2 (ca_serialize_requires_time eros_approach) eq_refl).
Defined.

(** The display string of a linked approach without a time. *)
Lemma ca_time_str_absent_witness :
  CloseApproach.neo undated_approach = Some 0%nat /\
  CloseApproach.time_str datetime_to_str eros_heap undated_approach = "".
Proof.
  split; [reflexivity |].
  exact (ca_time_str_absent datetime_to_str eros_heap undated_approach
           eq_refl).
Defined.

(** * Further properties of the classes and the loaders *)

(** ** Strings under concatenation *)

Lemma append_inj_l (s a b : string) : s ++ a = s ++ b -> a = b.
Proof.
  induction s as [| c s IH]; cbn; [trivial |].
  intros [= H]. apply IH, H.
Qed.

Lemma float_or_nan_truthy (x : float) : float_truthy (float_or x nan) = true.
Proof. destruct x; reflexivity. Qed.

(** ** NearEarthObject: construction, display and serialization together *)

Section NearEarthObjectComposition.
Variable float_of_str : string -> option float.
Variable format_3f : float -> string.
Variable repr_str : string -> string.

(** The object the constructor returns, attribute by attribute. *)
Lemma neo_init_eq (designation name : option string) (diameter : float_arg)
    (hazardous : option bool) :
  NearEarthObject.__init__ float_of_str designation name diameter hazardous
  = Ok (NearEarthObject.mk
          (if NearEarthObject.is_empty_str designation
           then None else designation)
          (if NearEarthObject.is_empty_str name then None else name)
          (match diameter with
           | ArgFloat x => x
           | ArgStr s =>
               match float_of_str s with
               | Some x => x
               | None => nan
               end
           end)
          hazardous []).
Proof.
  unfold NearEarthObject.__init__, builtin_float, py_float.
  destruct diameter as [x | s]; [| destruct (float_of_str s)]; reflexivity.
Qed.

(** X1: the empty string is never stored.  Whenever the constructor
    returns an object, whatever the arguments were, the object has neither
    the empty string as its designation nor the empty string as its name. *)
Theorem neo_init_never_empty_string
    (designation name : option string) (diameter : float_input)
    (hazardous : option bool) (self : NearEarthObject.t) :
  NearEarthObject.__init__ float_of_str designation name diameter hazardous
  = Ok self ->
  NearEarthObject.designation self <> Some "" /\
  NearEarthObject.name self <> Some "".
Proof.
  destruct diameter as [a |]; [| discriminate].
  rewrite neo_init_eq. intros [= <-]. cbn. split.
  - destruct designation as [[| c s] |]; cbn; discriminate.
  - destruct name as [[| c s] |]; cbn; discriminate.
Qed.

(** X2: construction followed by serialization gives back the designation
    and the name that were passed, the empty string when one was not given,
    and the hazardous flag as passed: the normalization of the empty string
    to [None] does not show in the record. *)
Theorem neo_serialize_after_init
    (designation name : option string) (diameter : float_arg)
    (hazardous : option bool) :
  exists self,
    NearEarthObject.__init__ float_of_str designation name diameter
      hazardous = Ok self /\
    lookup "designation" (NearEarthObject.serialize self) =
      Some (VStr (match designation with Some s => s | None => "" end)) /\
    lookup "name" (NearEarthObject.serialize self) =
      Some (VStr (match name with Some s => s | None => "" end)) /\
    lookup "potentially_hazardous" (NearEarthObject.serialize self) =
      Some (opt_bool_val hazardous).
Proof.
  eexists. split; [apply neo_init_eq |]. cbn.
  repeat split.
  - destruct designation as [[| c s] |]; reflexivity.
  - destruct name as [[| c s] |]; reflexivity.
Qed.

(** X3: the full name of a constructed object is its designation, a space
    and its name; an object built without a name (or with the empty one) is
    shown as ["EmptyName"], and one built without a designation (or with the
    empty one) as ["None"]. *)
Theorem neo_fullname_after_init
    (designation name : option string) (diameter : float_arg)
    (hazardous : option bool) :
  exists self,
    NearEarthObject.__init__ float_of_str designation name diameter
      hazardous = Ok self /\
    NearEarthObject.fullname self =
      match designation with
      | Some (String c s) => String c s
      | _ => "None"
      end ++ " " ++
      match name with
      | Some (String c s) => String c s
      | _ => "EmptyName"
      end.
Proof.
  eexists. split; [apply neo_init_eq |].
  destruct designation as [[| c s] |], name as [[| c' s'] |]; reflexivity.
Qed.

(** X4: [str] of an object tells a hazardous object from the others and
    nothing more: two objects that differ only in the flag have the same
    text exactly when their flags have the same truth value, so an unknown
    flag ([None]) reads as not hazardous. *)
Theorem neo_str_flag_truth
    (designation name : option string) (diameter : float)
    (approaches : list loc) (h1 h2 : option bool) :
  NearEarthObject.__str__ format_3f
    (NearEarthObject.mk designation name diameter h1 approaches) =
  NearEarthObject.__str__ format_3f
    (NearEarthObject.mk designation name diameter h2 approaches)
  <-> NearEarthObject.hazardous_truthy h1 = NearEarthObject.hazardous_truthy h2.
Proof.
  unfold NearEarthObject.__str__. cbn [NearEarthObject.designation
    NearEarthObject.name NearEarthObject.diameter NearEarthObject.hazardous].
  split.
  - intros H. do 7 apply append_inj_l in H.
    destruct h1 as [[|] |], h2 as [[|] |]; cbn in *;
      try reflexivity; discriminate.
  - intros ->. reflexivity.
Qed.

(** X5: [repr] of an object keeps the three states of the flag apart: two
    objects that differ only in the flag have the same [repr] only if their
    flags are equal. *)
Theorem neo_repr_flag_injective
    (designation name : option string) (diameter : float)
    (approaches : list loc) (h1 h2 : option bool) :
  NearEarthObject.__repr__ format_3f repr_str
    (NearEarthObject.mk designation name diameter h1 approaches) =
  NearEarthObject.__repr__ format_3f repr_str
    (NearEarthObject.mk designation name diameter h2 approaches)
  <-> h1 = h2.
Proof.
  unfold NearEarthObject.__repr__. cbn [NearEarthObject.designation
    NearEarthObject.name NearEarthObject.diameter NearEarthObject.hazardous].
  split.
  - intros H. do 8 apply append_inj_l in H.
    destruct h1 as [[|] |], h2 as [[|] |]; cbn in *;
      try reflexivity; discriminate.
  - intros ->. reflexivity.
Qed.

(** X6: the serialization of an object never carries a zero diameter: the
    value under [diameter_km] is a float that is true, the stored diameter
    when that is not zero. *)
Theorem neo_serialize_diameter_never_zero (self : NearEarthObject.t) :
  exists x,
    lookup "diameter_km" (NearEarthObject.serialize self) = Some (VFloat x) /\
    float_truthy x = true /\
    (x = NearEarthObject.diameter self \/
     x = nan /\ float_truthy (NearEarthObject.diameter self) = false).
Proof.
  eexists. split; [reflexivity |]. split; [apply float_or_nan_truthy |].
  unfold float_or.
  destruct (float_truthy (NearEarthObject.diameter self)); auto.
Qed.
End NearEarthObjectComposition.

(** ** CloseApproach: construction, display and serialization together *)

Section CloseApproachComposition.
Variable float_of_str : string -> option float.
Variable to_datetime : string -> result datetime.
Variable to_str : datetime -> string.

(** The constructor on well-formed numbers. *)
Lemma ca_init_well_formed
    (kw : CloseApproach.info) (t : CloseApproach.time_attr) :
  CloseApproach.time_of_arg to_datetime (CloseApproach.info_time kw) = Ok t ->
  malformed float_of_str (CloseApproach.info_distance kw) = false ->
  malformed float_of_str (CloseApproach.info_velocity kw) = false ->
  exists x v,
    py_float float_of_str
      (CloseApproach.get (CloseApproach.info_distance kw) (ArgFloat zero))
    = Ok x /\
    py_float float_of_str
      (CloseApproach.get (CloseApproach.info_velocity kw) (ArgFloat zero))
    = Ok v /\
    CloseApproach.__init__ float_of_str to_datetime kw =
    Ok (CloseApproach.mk
          (CloseApproach.get (CloseApproach.info_designation kw) "")
          t x v None).
Proof.
  intros Ht Hd Hv.
  destruct (py_float_well_formed float_of_str _ Hd) as [x Hx].
  destruct (py_float_well_formed float_of_str _ Hv) as [v Hv'].
  exists x, v. split; [exact Hx |]. split; [exact Hv' |].
  unfold CloseApproach.__init__. rewrite Ht, Hx, Hv'. reflexivity.
Qed.

(** The constructor on a number that is none, once the time is accepted. *)
Lemma ca_init_raises_ValueError
    (kw : CloseApproach.info) (t : CloseApproach.time_attr) :
  CloseApproach.time_of_arg to_datetime (CloseApproach.info_time kw) = Ok t ->
  malformed float_of_str (CloseApproach.info_distance kw) = true \/
  malformed float_of_str (CloseApproach.info_velocity kw) = true ->
  CloseApproach.__init__ float_of_str to_datetime kw = Raise ValueError.
Proof.
  intros Ht Hbad. unfold CloseApproach.__init__. rewrite Ht. cbn.
  destruct (malformed float_of_str (CloseApproach.info_distance kw)) eqn:Hd.
  - rewrite (py_float_malformed float_of_str _ Hd). reflexivity.
  - destruct (py_float_well_formed float_of_str _ Hd) as [x ->]. cbn.
    destruct Hbad as [Hbad | Hbad]; [discriminate |].
    rewrite (py_float_malformed float_of_str _ Hbad). reflexivity.
Qed.

(** X7: the serialization of an approach never carries a zero: the values
    under [distance_au] and [velocity_km_s] are floats that are true. *)
Theorem ca_serialize_never_zero (self : CloseApproach.t) (r : record) :
  CloseApproach.serialize self = Ok r ->
  exists x v,
    lookup "distance_au" r = Some (VFloat x) /\
    lookup "velocity_km_s" r = Some (VFloat v) /\
    float_truthy x = true /\ float_truthy v = true.
Proof.
  unfold CloseApproach.serialize.
  destruct (CloseApproach.time self) as [| | d]; cbn; try discriminate.
  intros [= <-]. do 2 eexists.
  split; [reflexivity |]. split; [reflexivity |].
  split; apply float_or_nan_truthy.
Qed.

(** X9: an approach built without a time (the key not given, [None], or the
    empty string) and with well-formed numbers is returned by the
    constructor, shows the empty string as its [time_str] on every heap, and
    cannot be serialized: [serialize] raises [AttributeError]. *)
Theorem ca_init_without_time (kw : CloseApproach.info) :
  CloseApproach.info_time kw = None \/ CloseApproach.info_time kw = Some "" ->
  malformed float_of_str (CloseApproach.info_distance kw) = false ->
  malformed float_of_str (CloseApproach.info_velocity kw) = false ->
  exists self,
    CloseApproach.__init__ float_of_str to_datetime kw = Ok self /\
    (forall heap, CloseApproach.time_str to_str heap self = "") /\
    CloseApproach.serialize self = Raise AttributeError.
Proof.
  intros Htime Hd Hv.
  assert (Ht : exists t,
             CloseApproach.time_of_arg to_datetime (CloseApproach.info_time kw)
             = Ok t /\ CloseApproach.time_truthy t = false).
  { destruct Htime as [-> | ->]; eexists; split; reflexivity. }
  destruct Ht as (t & Ht & Hfalse).
  destruct (ca_init_well_formed kw t Ht Hd Hv) as (x & v & _ & _ & Hinit).
  eexists. split; [exact Hinit |].
  destruct t; try discriminate; split; reflexivity.
Qed.

(** X10: an approach built with a time the helper converts and with
    well-formed numbers is returned by the constructor and serializes to a
    record whose [datetime_utc] is the converted time formatted to the
    minute. *)
Theorem ca_init_with_time_serializes
    (kw : CloseApproach.info) (c : ascii) (s : string) (d : datetime) :
  CloseApproach.info_time kw = Some (String c s) ->
  to_datetime (String c s) = Ok d ->
  malformed float_of_str (CloseApproach.info_distance kw) = false ->
  malformed float_of_str (CloseApproach.info_velocity kw) = false ->
  exists self r,
    CloseApproach.__init__ float_of_str to_datetime kw = Ok self /\
    CloseApproach.time self = CloseApproach.TimeDatetime d /\
    CloseApproach.neo self = None /\
    CloseApproach.serialize self = Ok r /\
    lookup "datetime_utc" r = Some (VStr (strftime_minute d)).
Proof.
  intros Htime Hconv Hd Hv.
  assert (Ht : CloseApproach.time_of_arg to_datetime
                 (CloseApproach.info_time kw)
               = Ok (CloseApproach.TimeDatetime d)).
  { rewrite Htime. cbn. rewrite Hconv. reflexivity. }
  destruct (ca_init_well_formed kw _ Ht Hd Hv) as (x & v & _ & _ & Hinit).
  do 2 eexists. split; [exact Hinit |].
  repeat split.
Qed.

(** X11: the display string is empty exactly when the time is absent
    ([None] or the empty string); with a time it opens with ["Time "]. *)
Theorem ca_time_str_empty_iff (heap : store) (self : CloseApproach.t) :
  (CloseApproach.time_str to_str heap self = ""
   <-> CloseApproach.time_truthy (CloseApproach.time self) = false) /\
  (CloseApproach.time_truthy (CloseApproach.time self) = true ->
   exists rest, CloseApproach.time_str to_str heap self = "Time " ++ rest).
Proof.
  unfold CloseApproach.time_str.
  destruct (CloseApproach.time self) as [| | d]; cbn.
  - split; [split; reflexivity | discriminate].
  - split; [split; reflexivity | discriminate].
  - destruct (CloseApproach.neo self) as [l |].
    + split; [split; discriminate |]. intros _.
      exists (to_str d ++
              "Name " ++ format_opt_str (NearEarthObject.name (heap l)) ++
              " Designation " ++
              format_opt_str (NearEarthObject.designation (heap l))).
      reflexivity.
    + split; [split; discriminate |]. intros _.
      exists (to_str d). reflexivity.
Qed.

(** X12: the serialized time determines the time to the minute: two
    approaches with valid times whose records agree on [datetime_utc] have
    times with the same year, month, day, hour and minute (seconds and
    microseconds are not emitted). *)
Theorem ca_serialize_datetime_injective
    (a b : CloseApproach.t) (da db : datetime) (ra rb : record) :
  CloseApproach.time a = CloseApproach.TimeDatetime da ->
  CloseApproach.time b = CloseApproach.TimeDatetime db ->
  valid_datetime da = true ->
  valid_datetime db = true ->
  CloseApproach.serialize a = Ok ra ->
  CloseApproach.serialize b = Ok rb ->
  lookup "datetime_utc" ra = lookup "datetime_utc" rb ->
  year da = year db /\ month da = month db /\ day da = day db /\
  hour da = hour db /\ minute da = minute db.
Proof.
  intros Ha Hb Hva Hvb Hra Hrb Heq.
  rewrite (ca_serialize_datetime a da Ha) in Hra.
  rewrite (ca_serialize_datetime b db Hb) in Hrb.
  injection Hra as <-. injection Hrb as <-.
  change (Some (VStr (strftime_minute da)) = Some (VStr (strftime_minute db)))
    in Heq.
  injection Heq as Heq.
  pose proof (strftime_minute_padded_eq da db Hva Hvb Heq) as Hpad.
  pose proof (padded_minute_fields da Hva) as Fa.
  pose proof (padded_minute_fields db Hvb) as Fb.
  rewrite Hpad, Fb in Fa.
  injection Fa as Hy Hm Hd Hh Hn. repeat split; congruence.
Qed.
End CloseApproachComposition.

(** ** The loaders, row by row *)

Section LoadersRowByRow.
Variable float_of_str : string -> option float.
Variable to_datetime : string -> result datetime.

Lemma index_nth (row : list string) (i : nat) :
  (i < List.length row)%nat -> index row i = Ok (nth i row "").
Proof.
  intros Hi. unfold index.
  rewrite (nth_error_nth' row "" Hi). reflexivity.
Qed.

Lemma index_short (row : list string) (i : nat) :
  (List.length row <= i)%nat -> index row i = Raise IndexError.
Proof.
  intros Hi. unfold index.
  apply nth_error_None in Hi. rewrite Hi. reflexivity.
Qed.

(** The object built from a row that has its sixteen columns. *)
Lemma neo_of_full_row (row : list string) :
  (16 <= List.length row)%nat ->
  neo_of_row float_of_str row =
  Ok (NearEarthObject.mk
        (if NearEarthObject.is_empty_str (Some (nth 3 row ""))
         then None else Some (nth 3 row ""))
        (if NearEarthObject.is_empty_str (Some (nth 4 row ""))
         then None else Some (nth 4 row ""))
        (match float_of_str (nth 15 row "") with
         | Some x => x
         | None => nan
         end)
        (Some (String.eqb (nth 7 row "") "Y")) []).
Proof.
  intros Hlen. unfold neo_of_row, neo_args.
  rewrite !index_nth by lia. cbn [bind].
  apply neo_init_eq.
Qed.

(** A row that lacks one of them stops at the first column it lacks. *)
Lemma neo_of_short_row (row : list string) :
  (List.length row < 16)%nat ->
  neo_of_row float_of_str row = Raise IndexError.
Proof.
  intros Hlen. unfold neo_of_row, neo_args.
  destruct (Nat.le_gt_cases (List.length row) 3) as [H3 | H3];
    [rewrite (index_short row 3 H3); reflexivity |].
  rewrite (index_nth row 3 H3). cbn [bind].
  destruct (Nat.le_gt_cases (List.length row) 4) as [H4 | H4];
    [rewrite (index_short row 4 H4); reflexivity |].
  rewrite (index_nth row 4 H4). cbn [bind].
  destruct (Nat.le_gt_cases (List.length row) 7) as [H7 | H7];
    [rewrite (index_short row 7 H7); reflexivity |].
  rewrite (index_nth row 7 H7). cbn [bind].
  rewrite (index_short row 15) by lia. reflexivity.
Qed.

(** The loader either meets only full rows and returns the objects built
    from them, or meets a short row and raises [IndexError]. *)
Lemma load_neos_cases (rows : list (list string)) :
  (Forall (fun row => (16 <= List.length row)%nat) rows /\
   exists neos,
     load_neos float_of_str rows = Ok neos /\
     Forall2 (fun row n => neo_of_row float_of_str row = Ok n) rows neos) \/
  (Exists (fun row => (List.length row < 16)%nat) rows /\
   load_neos float_of_str rows = Raise IndexError).
Proof.
  induction rows as [| row rows IH].
  - left. split; [constructor |]. exists []. split; [reflexivity | constructor].
  - destruct (Nat.le_gt_cases 16 (List.length row)) as [Hrow | Hrow].
    + destruct IH as [(Hall & neos & Hneos & Hrel) | (Hex & Hraise)].
      * left. split; [constructor; assumption |].
        eexists. split.
        -- cbn. rewrite (neo_of_full_row row Hrow). cbn. rewrite Hneos.
           reflexivity.
        -- constructor; [apply neo_of_full_row, Hrow | exact Hrel].
      * right. split; [apply Exists_cons_tl, Hex |].
        cbn. rewrite (neo_of_full_row row Hrow). cbn. rewrite Hraise.
        reflexivity.
    + right. split; [apply Exists_cons_hd, Hrow |].
      cbn. rewrite (neo_of_short_row row Hrow). reflexivity.
Qed.

(** X13: on the rows the CSV reader has yielded, the loop of the object
    loader raises no exception but [IndexError], raises it exactly when some
    row has fewer than sixteen columns, and returns the objects exactly when
    every row has its sixteen columns: no content of the designation, name,
    flag or diameter column stops it. *)
Theorem load_neos_raises_iff_short_row (rows : list (list string)) :
  (forall e, load_neos float_of_str rows = Raise e -> e = IndexError) /\
  (load_neos float_of_str rows = Raise IndexError
   <-> Exists (fun row => (List.length row < 16)%nat) rows) /\
  ((exists neos, load_neos float_of_str rows = Ok neos)
   <-> Forall (fun row => (16 <= List.length row)%nat) rows).
Proof.
  destruct (load_neos_cases rows)
    as [(Hall & neos & Hneos & _) | (Hex & Hraise)].
  - split; [intros e He; congruence |]. split; split.
    + intros He. congruence.
    + intros Hex. apply Exists_exists in Hex. destruct Hex as (row & Hin & Hlt).
      rewrite Forall_forall in Hall. specialize (Hall row Hin). lia.
    + intros _. exact Hall.
    + intros _. exists neos. exact Hneos.
  - split; [intros e He; congruence |]. split; split.
    + intros _. exact Hex.
    + intros _. exact Hraise.
    + intros [neos Hneos]. congruence.
    + intros Hall. apply Exists_exists in Hex.
      destruct Hex as (row & Hin & Hlt).
      rewrite Forall_forall in Hall. specialize (Hall row Hin). lia.
Qed.

(** X14: on rows with their sixteen columns the loader returns one object
    per row, in order, whose serialization gives back the designation column
    (3) and the name column (4) as they are in the file, empty or not, and
    the comparison of the flag column (7) with ["Y"] as a boolean, never
    [None]. *)
Theorem load_neos_serialize_columns (rows : list (list string)) :
  Forall (fun row => (16 <= List.length row)%nat) rows ->
  exists neos,
    load_neos float_of_str rows = Ok neos /\
    List.length neos = List.length rows /\
    Forall2
      (fun row n =>
         lookup "designation" (NearEarthObject.serialize n) =
           Some (VStr (nth 3 row "")) /\
         lookup "name" (NearEarthObject.serialize n) =
           Some (VStr (nth 4 row "")) /\
         lookup "potentially_hazardous" (NearEarthObject.serialize n) =
           Some (VBool (String.eqb (nth 7 row "") "Y")))
      rows neos.
Proof.
  intros Hall.
  destruct (load_neos_cases rows)
    as [(_ & neos & Hneos & Hrel) | (Hex & _)].
  - exists neos. split; [exact Hneos |].
    split; [symmetry; exact (Forall2_length Hrel) |].
    clear Hneos. induction Hrel as [| row n rows neos Hrow _ IH];
      constructor.
    + inversion Hall as [| ? ? Hlen _]; subst.
      rewrite (neo_of_full_row row Hlen) in Hrow. injection Hrow as <-.
      cbn. repeat split.
      * destruct (nth 3 row "") as [| c s]; reflexivity.
      * destruct (nth 4 row "") as [| c s]; reflexivity.
    + apply IH. inversion Hall; assumption.
  - apply Exists_exists in Hex. destruct Hex as (row & Hin & Hlt).
    rewrite Forall_forall in Hall. specialize (Hall row Hin). lia.
Qed.

(** X15: on rows with their sixteen columns every loaded object has the
    diameter column (15) read as a float, and NaN when that column is no
    number (the empty column of an unknown diameter included); it has no
    approaches, and neither its designation nor its name is the empty
    string. *)
Theorem load_neos_diameters (rows : list (list string)) :
  Forall (fun row => (16 <= List.length row)%nat) rows ->
  exists neos,
    load_neos float_of_str rows = Ok neos /\
    Forall2
      (fun row n =>
         NearEarthObject.diameter n =
           match float_of_str (nth 15 row "") with
           | Some x => x
           | None => nan
           end /\
         NearEarthObject.approaches n = [] /\
         NearEarthObject.designation n <> Some "" /\
         NearEarthObject.name n <> Some "")
      rows neos.
Proof.
  intros Hall.
  destruct (load_neos_cases rows)
    as [(_ & neos & Hneos & Hrel) | (Hex & _)].
  - exists neos. split; [exact Hneos |].
    clear Hneos. induction Hrel as [| row n rows neos Hrow _ IH];
      constructor.
    + inversion Hall as [| ? ? Hlen _]; subst.
      rewrite (neo_of_full_row row Hlen) in Hrow. injection Hrow as <-.
      cbn. repeat split.
      * destruct (nth 3 row "") as [| c s]; discriminate.
      * destruct (nth 4 row "") as [| c s]; discriminate.
    + apply IH. inversion Hall; assumption.
  - apply Exists_exists in Hex. destruct Hex as (row & Hin & Hlt).
    rewrite Forall_forall in Hall. specialize (Hall row Hin). lia.
Qed.
(** The constructor call made for an item that has its eight fields. *)
Lemma approach_of_full_item (item : list string) :
  (8 <= List.length item)%nat ->
  approach_of_item float_of_str to_datetime item =
  CloseApproach.__init__ float_of_str to_datetime
    (CloseApproach.mk_info (Some (nth 0 item "")) (Some (nth 3 item ""))
       (Some (ArgStr (nth 4 item ""))) (Some (ArgStr (nth 7 item "")))).
Proof.
  intros Hlen. unfold approach_of_item, approach_info.
  rewrite !index_nth by lia. reflexivity.
Qed.

(** X16: on items that have their eight fields, a time the constructor
    accepts and a distance and a velocity that are numbers, the approach
    loader returns one approach per item, in order: each keeps the
    designation field (0), has the converted time, the distance (4) and the
    velocity (7) read as floats, and is not linked to any object. *)
Theorem load_approaches_fields (items : list (list string)) :
  Forall
    (fun item =>
       (8 <= List.length item)%nat /\
       (exists t,
          CloseApproach.time_of_arg to_datetime (Some (nth 3 item ""))
          = Ok t) /\
       float_of_str (nth 4 item "") <> None /\
       float_of_str (nth 7 item "") <> None)
    items ->
  exists approaches,
    load_approaches float_of_str to_datetime items = Ok approaches /\
    Forall2
      (fun item a =>
         CloseApproach._designation a = nth 0 item "" /\
         CloseApproach.time_of_arg to_datetime (Some (nth 3 item ""))
         = Ok (CloseApproach.time a) /\
         float_of_str (nth 4 item "") = Some (CloseApproach.distance a) /\
         float_of_str (nth 7 item "") = Some (CloseApproach.velocity a) /\
         CloseApproach.neo a = None)
      items approaches.
Proof.
  induction 1 as [| item items (Hlen & [t Ht] & Hd & Hv) _ IH].
  - exists []. split; [reflexivity | constructor].
  - destruct IH as (approaches & Hload & Hrel).
    destruct (float_of_str (nth 4 item "")) as [x |] eqn:Hx; [| congruence].
    destruct (float_of_str (nth 7 item "")) as [v |] eqn:Hv'; [| congruence].
    exists (CloseApproach.mk (nth 0 item "") t x v None :: approaches).
    split.
    + cbn. rewrite (approach_of_full_item item Hlen).
      unfold CloseApproach.__init__.
      cbn [CloseApproach.info_time CloseApproach.info_distance
           CloseApproach.info_velocity CloseApproach.info_designation
           CloseApproach.get py_float].
      rewrite Ht, Hx, Hv'. cbn. rewrite Hload. reflexivity.
    + constructor; [| exact Hrel]. cbn. repeat split; assumption.
Qed.

(** X17: one distance or velocity that is no number stops the approach
    loader: on items that have their eight fields and a time the constructor
    accepts, if some item has such a distance or velocity the loader raises
    [ValueError] and returns no approach at all. *)
Theorem load_approaches_malformed_aborts (items : list (list string)) :
  Forall
    (fun item =>
       (8 <= List.length item)%nat /\
       exists t,
         CloseApproach.time_of_arg to_datetime (Some (nth 3 item ""))
         = Ok t)
    items ->
  Exists
    (fun item =>
       float_of_str (nth 4 item "") = None \/
       float_of_str (nth 7 item "") = None)
    items ->
  load_approaches float_of_str to_datetime items = Raise ValueError.
Proof.
  induction 1 as [| item items (Hlen & [t Ht]) _ IH]; intros Hex.
  - inversion Hex.
  - cbn. rewrite (approach_of_full_item item Hlen).
    destruct (float_of_str (nth 4 item "")) as [x |] eqn:Hx.
    + destruct (float_of_str (nth 7 item "")) as [v |] eqn:Hv.
      * unfold CloseApproach.__init__.
        cbn [CloseApproach.info_time CloseApproach.info_distance
             CloseApproach.info_velocity CloseApproach.info_designation
             CloseApproach.get py_float].
        rewrite Ht, Hx, Hv. cbn.
        inversion Hex as [? ? [Hbad | Hbad] | ? ? Htail]; subst;
          try congruence.
        rewrite (IH Htail). reflexivity.
      * set (kw := CloseApproach.mk_info _ _ _ _).
        rewrite (ca_init_raises_ValueError float_of_str to_datetime kw t Ht);
          [reflexivity |].
        right. cbn. rewrite Hv. reflexivity.
    + set (kw := CloseApproach.mk_info _ _ _ _).
      rewrite (ca_init_raises_ValueError float_of_str to_datetime kw t Ht);
        [reflexivity |].
      left. cbn. rewrite Hx. reflexivity.
Qed.
End LoadersRowByRow.

(** ** The further properties on concrete inputs *)

(** An object built from empty strings holds [None] in their place. *)
Lemma neo_init_never_empty_string_witness :
  NearEarthObject.designation anonymous_neo <> Some "" /\
  NearEarthObject.name anonymous_neo <> Some "".
Proof.
  exact (neo_init_never_empty_string float_of_short_decimal (Some "")
           (Some "") (ArgStr "16.84") (Some false) anonymous_neo eq_refl).
Defined.

(** The record of the approach of Eros holds no zero. *)
Lemma ca_serialize_never_zero_witness :
  exists x v,
    lookup "distance_au" eros_record = Some (VFloat x) /\
    lookup "velocity_km_s" eros_record = Some (VFloat v) /\
    float_truthy x = true /\ float_truthy v = true.
Proof.
  exact (ca_serialize_never_zero eros_approach eros_record eq_refl).
Defined.

(** An approach of Eros built without a time. *)
Lemma ca_init_without_time_witness :
  exists self,
    CloseApproach.__init__ float_of_short_decimal cd_to_datetime
      timeless_info = Ok self /\
    (forall heap, CloseApproach.time_str datetime_to_str heap self = "") /\
    CloseApproach.serialize self = Raise AttributeError.
Proof.
  exact (ca_init_without_time float_of_short_decimal cd_to_datetime
           datetime_to_str timeless_info (or_introl eq_refl)
           eq_refl eq_refl).
Defined.

(** The approach of Eros built from the strings of the file. *)
Lemma ca_init_with_time_serializes_witness :
  exists self r,
    CloseApproach.__init__ float_of_short_decimal cd_to_datetime eros_info
    = Ok self /\
    CloseApproach.time self = CloseApproach.TimeDatetime new_year_1900 /\
    CloseApproach.neo self = None /\
    CloseApproach.serialize self = Ok r /\
    lookup "datetime_utc" r = Some (VStr (strftime_minute new_year_1900)).
Proof.
  exact (ca_init_with_time_serializes float_of_short_decimal cd_to_datetime
           eros_info "1" "900-Jan-01 00:11" new_year_1900
           eq_refl eq_refl eq_refl eq_refl).
Defined.

(** Two approaches half a minute apart have the same serialized time. *)
Lemma ca_serialize_datetime_injective_witness :
  CloseApproach.serialize late_approach = Ok eros_record /\
  year new_year_1900 = year new_year_1900_late /\
  month new_year_1900 = month new_year_1900_late /\
  day new_year_1900 = day new_year_1900_late /\
  hour new_year_1900 = hour new_year_1900_late /\
  minute new_year_1900 = minute new_year_1900_late.
Proof.
  split; [reflexivity |].
  exact (ca_serialize_datetime_injective eros_approach late_approach
           new_year_1900 new_year_1900_late eros_record eros_record
           eq_refl eq_refl eq_refl eq_refl eq_refl eq_refl eq_refl).
Defined.

Ltac full_rows :=
  repeat apply Forall_cons; [.. | apply Forall_nil]; cbn; lia.

(** The columns of the three sample rows, serialized. *)
Lemma load_neos_serialize_columns_witness :
  exists neos,
    load_neos float_of_short_decimal sample_rows = Ok neos /\
    List.length neos = List.length sample_rows /\
    Forall2
      (fun row n =>
         lookup "designation" (NearEarthObject.serialize n) =
           Some (VStr (nth 3 row "")) /\
         lookup "name" (NearEarthObject.serialize n) =
           Some (VStr (nth 4 row "")) /\
         lookup "potentially_hazardous" (NearEarthObject.serialize n) =
           Some (VBool (String.eqb (nth 7 row "") "Y")))
      sample_rows neos.
Proof.
  apply load_neos_serialize_columns. full_rows.
Defined.

(** The diameters of the three sample rows, the second one empty. *)
Lemma load_neos_diameters_witness :
  exists neos,
    load_neos float_of_short_decimal sample_rows = Ok neos /\
    Forall2
      (fun row n =>
         NearEarthObject.diameter n =
           match float_of_short_decimal (nth 15 row "") with
           | Some x => x
           | None => nan
           end /\
         NearEarthObject.approaches n = [] /\
         NearEarthObject.designation n <> Some "" /\
         NearEarthObject.name n <> Some "")
      sample_rows neos.
Proof.
  apply load_neos_diameters. full_rows.
Defined.

(** The diameters the loader reads from the sample rows. *)
Example sample_rows_diameters :
  option_map (map NearEarthObject.diameter)
    (match load_neos float_of_short_decimal sample_rows with
     | Ok neos => Some neos
     | Raise _ => None
     end)
  = Some [ NearEarthObject.diameter eros; nan;
           S754_finite false 4503599627370496 (-53) ].
Proof. vm_compute. reflexivity. Qed.

(** The loader on a short row after a full one, and on the full one. *)
Lemma load_neos_raises_iff_short_row_witness :
  load_neos float_of_short_decimal
    [ sample_row "433" "Eros" "N" "16.84"; ["2020 AB"; ""; "Y"] ]
  = Raise IndexError /\
  exists neos,
    load_neos float_of_short_decimal [ sample_row "433" "Eros" "N" "16.84" ]
    = Ok neos.
Proof.
  split.
  - apply (proj1 (proj2 (load_neos_raises_iff_short_row
                           float_of_short_decimal _))).
    apply Exists_cons_tl, Exists_cons_hd. cbn. lia.
  - apply (proj2 (proj2 (load_neos_raises_iff_short_row
                           float_of_short_decimal _))).
    full_rows.
Defined.

(** The two sample items, loaded. *)
Lemma load_approaches_fields_witness :
  exists approaches,
    load_approaches float_of_short_decimal cd_to_datetime sample_items
    = Ok approaches /\
    Forall2
      (fun item a =>
         CloseApproach._designation a = nth 0 item "" /\
         CloseApproach.time_of_arg cd_to_datetime (Some (nth 3 item ""))
         = Ok (CloseApproach.time a) /\
         float_of_short_decimal (nth 4 item "")
         = Some (CloseApproach.distance a) /\
         float_of_short_decimal (nth 7 item "")
         = Some (CloseApproach.velocity a) /\
         CloseApproach.neo a = None)
      sample_items approaches.
Proof.
  apply load_approaches_fields.
  repeat apply Forall_cons; [.. | apply Forall_nil];
    (split; [cbn; lia |]);
    (split; [eexists; vm_compute; reflexivity |]);
    split; vm_compute; discriminate.
Defined.

(** The two sample items followed by one with the distance ["n/a"]. *)
Lemma load_approaches_malformed_aborts_witness :
  load_approaches float_of_short_decimal cd_to_datetime garbled_items
  = Raise ValueError.
Proof.
  apply load_approaches_malformed_aborts.
  - repeat apply Forall_cons; [.. | apply Forall_nil];
      (split; [cbn; lia | eexists; vm_compute; reflexivity]).
  - do 2 apply Exists_cons_tl. apply Exists_cons_hd.
    left. reflexivity.
Defined.
